(** * The admin API service of the node (package [admin], service.go)

    Every handler of the service is a short straight-line Go method that
    logs a debug line, writes fields of the reply it was handed, calls at
    most three methods of the objects the service holds, and returns an
    [error].  The handlers are embedded as small programs over the calls
    they make; [exec] runs such a program against implementations of the
    collaborators, threading the service struct and the state of the
    objects it points to, and records every call together with the reply
    as it stood when the call was made. *)

From Stdlib Require Import String List ZArith Bool Lia.
From stdpp Require Import base option gmap strings.
Import ListNotations.
Local Open Scope string_scope.
Local Open Scope list_scope.

(** ** Data *)

(** A field that holds an interface value or a pointer stores the address
    of an object; the object itself lives in the [World] below. *)
Definition Addr := N.

Section Service.

(** Types and pure functions of packages outside this one:
    [version.Version] and its [String], [ids.ShortID], [ids.ID] and its
    [String], Go's [error] values, and [genesis.NetworkName]. *)
Context {Version ShortID ID Err : Type}.
Variable Version_String : Version -> string.
Variable ID_String : ID -> string.
Variable genesis_NetworkName : Z -> string.
Variable ShortID_zero : ShortID.

(** The struct [Performance] is declared in this package, in a file
    other than service.go; the service embeds it by value. *)
Context {Performance : Type}.
Variable Performance_zero : Performance.

(** A Go [error] is nil ([None]) or a value. *)
Local Abbreviation error := (option Err).

(** network/peer_id.go; a [time.Time] is kept as an instant. *)
Record PeerID := {
  PeerID_IP : string;
  PeerID_PublicIP : string;
  PeerID_ID : ShortID;
  PeerID_Version : string;
  PeerID_LastSent : Z;
  PeerID_LastReceived : Z
}.

Record Admin := {
  version : Version;
  nodeID : ShortID;
  networkID : Z;            (* uint32 *)
  log : Addr;               (* logging.Logger *)
  networking : Addr;        (* network.Network *)
  performance : Performance;
  chainManager : Addr;      (* chains.Manager *)
  httpServer : Addr         (* *api.Server *)
}.

Record GetNodeVersionReply := { GetNodeVersionReply_Version : string }.
Record GetNodeIDReply := { GetNodeIDReply_NodeID : ShortID }.
Record GetNetworkIDReply := { GetNetworkIDReply_NetworkID : Z }.
Record GetNetworkNameReply := { GetNetworkNameReply_NetworkName : string }.
Record GetBlockchainIDArgs := { GetBlockchainIDArgs_Alias : string }.
Record GetBlockchainIDReply := { GetBlockchainIDReply_BlockchainID : string }.
Record PeersReply := { PeersReply_Peers : list PeerID }.
Record StartCPUProfilerArgs := { StartCPUProfilerArgs_Filename : string }.
Record StartCPUProfilerReply := { StartCPUProfilerReply_Success : bool }.
Record StopCPUProfilerReply := { StopCPUProfilerReply_Success : bool }.
Record MemoryProfileArgs := { MemoryProfileArgs_Filename : string }.
Record MemoryProfileReply := { MemoryProfileReply_Success : bool }.
Record LockProfileArgs := { LockProfileArgs_Filename : string }.
Record LockProfileReply := { LockProfileReply_Success : bool }.
Record AliasArgs := { AliasArgs_Endpoint : string; AliasArgs_Alias : string }.
Record AliasReply := { AliasReply_Success : bool }.
Record AliasChainArgs := { AliasChainArgs_Chain : string; AliasChainArgs_Alias : string }.
Record AliasChainReply := { AliasChainReply_Success : bool }.
Record StacktraceReply := { StacktraceReply_Stacktrace : string }.

(** ** Calls a handler makes *)

Inductive Call : Type :=
| log_Debug (format : string) (args : list string)
| chainManager_Lookup (alias : string)
| chainManager_Alias (chainID : ID) (alias : string)
| httpServer_AddAliasesWithReadLock (endpoint : string) (aliases : list string)
| performance_StartCPUProfiler (filename : string)
| performance_StopCPUProfiler
| performance_MemoryProfile (filename : string)
| performance_LockProfile (filename : string)
| networking_Peers
| logging_Stacktrace_String (global : bool).

(** What each call hands back. *)
Definition Resp (c : Call) : Type :=
  match c with
  | log_Debug _ _ => unit
  | chainManager_Lookup _ => (ID * error)%type
  | chainManager_Alias _ _ => error
  | httpServer_AddAliasesWithReadLock _ _ => error
  | performance_StartCPUProfiler _ => error
  | performance_StopCPUProfiler => error
  | performance_MemoryProfile _ => error
  | performance_LockProfile _ => error
  | networking_Peers => list PeerID
  | logging_Stacktrace_String _ => string
  end.

(** The error a call returned, nil for the calls that return none. *)
Definition call_error (c : Call) : Resp c -> error :=
  match c return Resp c -> error with
  | log_Debug _ _ => fun _ => None
  | chainManager_Lookup _ => fun r => snd r
  | chainManager_Alias _ _ => fun r => r
  | httpServer_AddAliasesWithReadLock _ _ => fun r => r
  | performance_StartCPUProfiler _ => fun r => r
  | performance_StopCPUProfiler => fun r => r
  | performance_MemoryProfile _ => fun r => r
  | performance_LockProfile _ => fun r => r
  | networking_Peers => fun _ => None
  | logging_Stacktrace_String _ => fun _ => None
  end.

(** A handler with reply type [R]: return an error, assign to the reply,
    or make a call and go on with what it returned. *)
Inductive Handler (R : Type) : Type :=
| Return (err : error)
| Assign (upd : R -> R) (k : Handler R)
| Invoke (c : Call) (k : Resp c -> Handler R).

Arguments Return {R} err.
Arguments Assign {R} upd k.
Arguments Invoke {R} c k.

Notation "'call' c ; k" := (Invoke c (fun _ => k))
  (at level 10, c at level 99, k at level 200, only parsing).
Notation "'let*' x := c ; k" := (Invoke c (fun x => k))
  (at level 10, x pattern, c at level 99, k at level 200, only parsing).
Notation "'write' v ; k" := (Assign (fun _ => v) k)
  (at level 10, v at level 99, k at level 200, only parsing).

(** ** The handlers of service.go *)

Definition GetNodeVersion (service : Admin) : Handler GetNodeVersionReply :=
  call log_Debug "Admin: GetNodeVersion called" [];
  write {| GetNodeVersionReply_Version := Version_String (version service) |};
  Return None.

Definition GetNodeID (service : Admin) : Handler GetNodeIDReply :=
  call log_Debug "Admin: GetNodeID called" [];
  write {| GetNodeIDReply_NodeID := nodeID service |};
  Return None.

Definition GetNetworkID (service : Admin) : Handler GetNetworkIDReply :=
  call log_Debug "Admin: GetNetworkID called" [];
  write {| GetNetworkIDReply_NetworkID := networkID service |};
  Return None.

Definition GetNetworkName (service : Admin) : Handler GetNetworkNameReply :=
  call log_Debug "Admin: GetNetworkName called" [];
  write {| GetNetworkNameReply_NetworkName := genesis_NetworkName (networkID service) |};
  Return None.

Definition GetBlockchainID (service : Admin) (args : GetBlockchainIDArgs)
  : Handler GetBlockchainIDReply :=
  call log_Debug "Admin: GetBlockchainID called" [];
  let* (bID, err) := chainManager_Lookup (GetBlockchainIDArgs_Alias args);
  write {| GetBlockchainIDReply_BlockchainID := ID_String bID |};
  Return err.

Definition Peers (service : Admin) : Handler PeersReply :=
  call log_Debug "Admin: Peers called" [];
  let* peers := networking_Peers;
  write {| PeersReply_Peers := peers |};
  Return None.

Definition StartCPUProfiler (service : Admin) (args : StartCPUProfilerArgs)
  : Handler StartCPUProfilerReply :=
  call log_Debug "Admin: StartCPUProfiler called with %s" [StartCPUProfilerArgs_Filename args];
  write {| StartCPUProfilerReply_Success := true |};
  let* err := performance_StartCPUProfiler (StartCPUProfilerArgs_Filename args);
  Return err.

Definition StopCPUProfiler (service : Admin) : Handler StopCPUProfilerReply :=
  call log_Debug "Admin: StopCPUProfiler called" [];
  write {| StopCPUProfilerReply_Success := true |};
  let* err := performance_StopCPUProfiler;
  Return err.

Definition MemoryProfile (service : Admin) (args : MemoryProfileArgs)
  : Handler MemoryProfileReply :=
  call log_Debug "Admin: MemoryProfile called with %s" [MemoryProfileArgs_Filename args];
  write {| MemoryProfileReply_Success := true |};
  let* err := performance_MemoryProfile (MemoryProfileArgs_Filename args);
  Return err.

Definition LockProfile (service : Admin) (args : LockProfileArgs)
  : Handler LockProfileReply :=
  call log_Debug "Admin: LockProfile called with %s" [LockProfileArgs_Filename args];
  write {| LockProfileReply_Success := true |};
  let* err := performance_LockProfile (LockProfileArgs_Filename args);
  Return err.

Definition Alias (service : Admin) (args : AliasArgs) : Handler AliasReply :=
  call log_Debug "Admin: Alias called with URL: %s, Alias: %s"
                 [AliasArgs_Endpoint args; AliasArgs_Alias args];
  write {| AliasReply_Success := true |};
  let* err := httpServer_AddAliasesWithReadLock (AliasArgs_Endpoint args) [AliasArgs_Alias args];
  Return err.

Definition AliasChain (service : Admin) (args : AliasChainArgs)
  : Handler AliasChainReply :=
  call log_Debug "Admin: AliasChain called with Chain: %s, Alias: %s"
                 [AliasChainArgs_Chain args; AliasChainArgs_Alias args];
  let* (chainID, err) := chainManager_Lookup (AliasChainArgs_Chain args);
  match err with
  | Some _ => Return err
  | None =>
    let* err := chainManager_Alias chainID (AliasChainArgs_Alias args);
    match err with
    | Some _ => Return err
    | None =>
      write {| AliasChainReply_Success := true |};
      let* err := httpServer_AddAliasesWithReadLock
                    ("bc/" +:+ ID_String chainID)
                    ["bc/" +:+ AliasChainArgs_Alias args];
      Return err
    end
  end.

Definition Stacktrace (service : Admin) : Handler StacktraceReply :=
  let* trace := logging_Stacktrace_String true;
  write {| StacktraceReply_Stacktrace := trace |};
  Return None.

(** [NewService] fills every field but [performance], which keeps the
    zero value of its struct type; the registration of the service with
    the RPC server is the transport's business. *)
Definition NewService (version : Version) (nodeID : ShortID) (networkID : Z)
    (log chainManager peers httpServer : Addr) : Admin :=
  {| version := version;
     nodeID := nodeID;
     networkID := networkID;
     log := log;
     networking := peers;
     performance := Performance_zero;
     chainManager := chainManager;
     httpServer := httpServer |}.

(** ** Collaborators *)

Context {Manager Server Network Runtime : Type}.

(** The objects the service reaches: the chain manager behind
    [chainManager], the API server behind [httpServer], the network behind
    [networking], and the Go runtime with its file system, which the
    methods of [performance] and [logging.Stacktrace] work on.  What is
    sent to the logger is kept in the record of calls, not here. *)
Record World := {
  chains : Manager;
  server : Server;
  network : Network;
  runtime : Runtime
}.

(** Implementations of the methods the handlers call.  [Lookup], [Peers]
    and the stack dump are queries; the other methods hand back the new
    state of the object they were called on. *)
Record Collaborators := {
  Manager_Lookup : Manager -> string -> ID * error;
  Manager_Alias : Manager -> ID -> string -> Manager * error;
  Server_AddAliasesWithReadLock : Server -> string -> list string -> Server * error;
  Network_Peers : Network -> list PeerID;
  Performance_StartCPUProfiler : Performance -> Runtime -> string -> Performance * Runtime * error;
  Performance_StopCPUProfiler : Performance -> Runtime -> Performance * Runtime * error;
  Performance_MemoryProfile : Performance -> Runtime -> string -> Performance * Runtime * error;
  Performance_LockProfile : Performance -> Runtime -> string -> Performance * Runtime * error;
  Stacktrace_String : Runtime -> bool -> string
}.

Variable impl : Collaborators.

Definition set_chains (m : Manager) (w : World) : World :=
  {| chains := m; server := server w; network := network w; runtime := runtime w |}.

Definition set_server (s : Server) (w : World) : World :=
  {| chains := chains w; server := s; network := network w; runtime := runtime w |}.

Definition set_runtime (r : Runtime) (w : World) : World :=
  {| chains := chains w; server := server w; network := network w; runtime := r |}.

(** A method of [service.performance] has a pointer receiver into the
    service struct: what it leaves behind is the new value of the field. *)
Definition set_performance (p : Performance) (service : Admin) : Admin :=
  {| version := version service;
     nodeID := nodeID service;
     networkID := networkID service;
     log := log service;
     networking := networking service;
     performance := p;
     chainManager := chainManager service;
     httpServer := httpServer service |}.

Definition on_performance (r : Performance * Runtime * error) (service : Admin) (w : World)
    : error * Admin * World :=
  let '(p, rt, err) := r in (err, set_performance p service, set_runtime rt w).

Definition perform (c : Call) (service : Admin) (w : World) : Resp c * Admin * World :=
  match c return Resp c * Admin * World with
  | log_Debug _ _ => (tt, service, w)
  | chainManager_Lookup alias =>
      (Manager_Lookup impl (chains w) alias, service, w)
  | chainManager_Alias chainID alias =>
      let '(m, err) := Manager_Alias impl (chains w) chainID alias in
      (err, service, set_chains m w)
  | httpServer_AddAliasesWithReadLock endpoint aliases =>
      let '(s, err) := Server_AddAliasesWithReadLock impl (server w) endpoint aliases in
      (err, service, set_server s w)
  | performance_StartCPUProfiler filename =>
      on_performance
        (Performance_StartCPUProfiler impl (performance service) (runtime w) filename) service w
  | performance_StopCPUProfiler =>
      on_performance
        (Performance_StopCPUProfiler impl (performance service) (runtime w)) service w
  | performance_MemoryProfile filename =>
      on_performance
        (Performance_MemoryProfile impl (performance service) (runtime w) filename) service w
  | performance_LockProfile filename =>
      on_performance
        (Performance_LockProfile impl (performance service) (runtime w) filename) service w
  | networking_Peers => (Network_Peers impl (network w), service, w)
  | logging_Stacktrace_String global => (Stacktrace_String impl (runtime w) global, service, w)
  end.

(** One call as it happened: what was called, what came back, and the
    reply as the handler had left it when it made the call. *)
Record Invocation (R : Type) := {
  inv_call : Call;
  inv_resp : Resp inv_call;
  inv_reply : R
}.

Arguments inv_call {R} _.
Arguments inv_resp {R} _.
Arguments inv_reply {R} _.

Record Outcome (R : Type) := {
  out_err : error;
  out_reply : R;
  out_service : Admin;
  out_world : World;
  out_calls : list (Invocation R)
}.

Arguments out_err {R} _.
Arguments out_reply {R} _.
Arguments out_service {R} _.
Arguments out_world {R} _.
Arguments out_calls {R} _.

Definition called {R : Type} (i : Invocation R) (o : Outcome R) : Outcome R :=
  {| out_err := out_err o;
     out_reply := out_reply o;
     out_service := out_service o;
     out_world := out_world o;
     out_calls := i :: out_calls o |}.

Fixpoint exec {R : Type} (h : Handler R) (reply : R) (service : Admin) (w : World)
    : Outcome R :=
  match h with
  | Return err =>
      {| out_err := err; out_reply := reply; out_service := service;
         out_world := w; out_calls := [] |}
  | Assign upd k => exec k (upd reply) service w
  | Invoke c k =>
      let '(x, service', w') := perform c service w in
      called {| inv_call := c; inv_resp := x; inv_reply := reply |}
             (exec (k x) reply service' w')
  end.

(** ** Requests

    The RPC server the service is registered with calls one method per
    request, on the one [Admin] value, with a reply of the method's reply
    type at its zero value. *)

Inductive Request : Type :=
| ReqGetNodeVersion
| ReqGetNodeID
| ReqGetNetworkID
| ReqGetNetworkName
| ReqGetBlockchainID (args : GetBlockchainIDArgs)
| ReqPeers
| ReqStartCPUProfiler (args : StartCPUProfilerArgs)
| ReqStopCPUProfiler
| ReqMemoryProfile (args : MemoryProfileArgs)
| ReqLockProfile (args : LockProfileArgs)
| ReqAlias (args : AliasArgs)
| ReqAliasChain (args : AliasChainArgs)
| ReqStacktrace.

Inductive Reply : Type :=
| RepGetNodeVersion (r : GetNodeVersionReply)
| RepGetNodeID (r : GetNodeIDReply)
| RepGetNetworkID (r : GetNetworkIDReply)
| RepGetNetworkName (r : GetNetworkNameReply)
| RepGetBlockchainID (r : GetBlockchainIDReply)
| RepPeers (r : PeersReply)
| RepStartCPUProfiler (r : StartCPUProfilerReply)
| RepStopCPUProfiler (r : StopCPUProfilerReply)
| RepMemoryProfile (r : MemoryProfileReply)
| RepLockProfile (r : LockProfileReply)
| RepAlias (r : AliasReply)
| RepAliasChain (r : AliasChainReply)
| RepStacktrace (r : StacktraceReply).

(** A call and what it returned, without the reply of the handler. *)
Record Event := {
  ev_call : Call;
  ev_resp : Resp ev_call
}.

Definition event_of {R : Type} (i : Invocation R) : Event :=
  {| ev_call := inv_call i; ev_resp := inv_resp i |}.

Record Response := {
  resp_err : error;
  resp_reply : Reply;
  resp_service : Admin;
  resp_world : World;
  resp_events : list Event
}.

Definition respond {R : Type} (wrap : R -> Reply) (o : Outcome R) : Response :=
  {| resp_err := out_err o;
     resp_reply := wrap (out_reply o);
     resp_service := out_service o;
     resp_world := out_world o;
     resp_events := map event_of (out_calls o) |}.

Definition serve (req : Request) (service : Admin) (w : World) : Response :=
  match req with
  | ReqGetNodeVersion =>
      respond RepGetNodeVersion
        (exec (GetNodeVersion service) {| GetNodeVersionReply_Version := "" |} service w)
  | ReqGetNodeID =>
      respond RepGetNodeID
        (exec (GetNodeID service) {| GetNodeIDReply_NodeID := ShortID_zero |} service w)
  | ReqGetNetworkID =>
      respond RepGetNetworkID
        (exec (GetNetworkID service) {| GetNetworkIDReply_NetworkID := 0 |} service w)
  | ReqGetNetworkName =>
      respond RepGetNetworkName
        (exec (GetNetworkName service) {| GetNetworkNameReply_NetworkName := "" |} service w)
  | ReqGetBlockchainID args =>
      respond RepGetBlockchainID
        (exec (GetBlockchainID service args)
              {| GetBlockchainIDReply_BlockchainID := "" |} service w)
  | ReqPeers =>
      respond RepPeers (exec (Peers service) {| PeersReply_Peers := [] |} service w)
  | ReqStartCPUProfiler args =>
      respond RepStartCPUProfiler
        (exec (StartCPUProfiler service args)
              {| StartCPUProfilerReply_Success := false |} service w)
  | ReqStopCPUProfiler =>
      respond RepStopCPUProfiler
        (exec (StopCPUProfiler service) {| StopCPUProfilerReply_Success := false |} service w)
  | ReqMemoryProfile args =>
      respond RepMemoryProfile
        (exec (MemoryProfile service args) {| MemoryProfileReply_Success := false |} service w)
  | ReqLockProfile args =>
      respond RepLockProfile
        (exec (LockProfile service args) {| LockProfileReply_Success := false |} service w)
  | ReqAlias args =>
      respond RepAlias (exec (Alias service args) {| AliasReply_Success := false |} service w)
  | ReqAliasChain args =>
      respond RepAliasChain
        (exec (AliasChain service args) {| AliasChainReply_Success := false |} service w)
  | ReqStacktrace =>
      respond RepStacktrace
        (exec (Stacktrace service) {| StacktraceReply_Stacktrace := "" |} service w)
  end.

(** A run of requests, one after the other, with the response to each. *)
Fixpoint serve_all (reqs : list Request) (service : Admin) (w : World)
    : list (Request * Response) * Admin * World :=
  match reqs with
  | [] => ([], service, w)
  | req :: rest =>
      let r := serve req service w in
      let '(rs, service', w') := serve_all rest (resp_service r) (resp_world r) in
      ((req, r) :: rs, service', w')
  end.

(** ** Vocabulary of the properties *)

(** The calls a handler made, in order. *)
Definition calls_of {R : Type} (o : Outcome R) : list Call :=
  map inv_call (out_calls o).

(** The calls a handler made, each with what a field of the reply held
    when the call was made. *)
Definition calls_with {R A : Type} (field : R -> A) (o : Outcome R) : list (Call * A) :=
  map (fun i => (inv_call i, field (inv_reply i))) (out_calls o).

(** Two values of the service struct that agree on every field but
    [performance]. *)
Definition same_wiring (s s' : Admin) : Prop :=
  version s' = version s /\ nodeID s' = nodeID s /\ networkID s' = networkID s
  /\ log s' = log s /\ networking s' = networking s
  /\ chainManager s' = chainManager s /\ httpServer s' = httpServer s.

(** The requests whose handlers call a method of [service.performance]. *)
Definition profiling_request (req : Request) : bool :=
  match req with
  | ReqStartCPUProfiler _ | ReqStopCPUProfiler | ReqMemoryProfile _ | ReqLockProfile _ => true
  | _ => false
  end.

Definition is_start (req : Request) : bool :=
  match req with ReqStartCPUProfiler _ => true | _ => false end.

Definition is_stop (req : Request) : bool :=
  match req with ReqStopCPUProfiler => true | _ => false end.

Definition succeeded (r : Response) : bool :=
  match resp_err r with None => true | Some _ => false end.

Definition successful_start (x : Request * Response) : bool :=
  is_start (fst x) && succeeded (snd x).

Definition successful_stop (x : Request * Response) : bool :=
  is_stop (fst x) && succeeded (snd x).

Definition is_debug (c : Call) : bool :=
  match c with log_Debug _ _ => true | _ => false end.

(** A request is a repeatable read when two calls of it, with any run of
    requests in between, both succeed with the same reply, neither
    changes the service or the world, and the only call either makes is
    the debug line to the logger. *)
Definition repeatable_read (op : Request) : Prop :=
  forall (reqs : list Request) (service : Admin) (w : World),
    let first := serve op service w in
    let between := serve_all reqs (resp_service first) (resp_world first) in
    let second := serve op (snd (fst between)) (snd between) in
    resp_err first = None /\ resp_err second = None
    /\ resp_reply second = resp_reply first
    /\ resp_service first = service /\ resp_world first = w
    /\ resp_service second = snd (fst between) /\ resp_world second = snd between
    /\ forallb (fun ev => is_debug (ev_call ev)) (resp_events first ++ resp_events second)
       = true.

(** What a call of [AliasChain] returns and leaves behind, by the step at
    which it stops: the lookup, the registration with the chain manager,
    or the registration with the API server.  No step undoes an earlier
    one. *)
Inductive AliasChain_result (w : World) (args : AliasChainArgs) : error -> World -> Prop :=
| AliasChain_unresolved (chainID : ID) (e : Err) :
    Manager_Lookup impl (chains w) (AliasChainArgs_Chain args) = (chainID, Some e) ->
    AliasChain_result w args (Some e) w
| AliasChain_chain_alias_failed (chainID : ID) (m : Manager) (e : Err) :
    Manager_Lookup impl (chains w) (AliasChainArgs_Chain args) = (chainID, None) ->
    Manager_Alias impl (chains w) chainID (AliasChainArgs_Alias args) = (m, Some e) ->
    AliasChain_result w args (Some e) (set_chains m w)
| AliasChain_route_alias_failed (chainID : ID) (m : Manager) (s : Server) (e : Err) :
    Manager_Lookup impl (chains w) (AliasChainArgs_Chain args) = (chainID, None) ->
    Manager_Alias impl (chains w) chainID (AliasChainArgs_Alias args) = (m, None) ->
    Server_AddAliasesWithReadLock impl (server w)
      ("bc/" +:+ ID_String chainID) ["bc/" +:+ AliasChainArgs_Alias args] = (s, Some e) ->
    AliasChain_result w args (Some e) (set_server s (set_chains m w))
| AliasChain_both_registered (chainID : ID) (m : Manager) (s : Server) :
    Manager_Lookup impl (chains w) (AliasChainArgs_Chain args) = (chainID, None) ->
    Manager_Alias impl (chains w) chainID (AliasChainArgs_Alias args) = (m, None) ->
    Server_AddAliasesWithReadLock impl (server w)
      ("bc/" +:+ ID_String chainID) ["bc/" +:+ AliasChainArgs_Alias args] = (s, None) ->
    AliasChain_result w args None (set_server s (set_chains m w)).

(** ** Vocabulary of the further properties *)

(** The requests whose handlers call nothing that hands back a new state:
    the four identity reads, GetBlockchainID, Peers and Stacktrace. *)
Definition read_only_request (req : Request) : bool :=
  match req with
  | ReqGetNodeVersion | ReqGetNodeID | ReqGetNetworkID | ReqGetNetworkName
  | ReqGetBlockchainID _ | ReqPeers | ReqStacktrace => true
  | _ => false
  end.

(** The requests whose handlers end in [return nil]. *)
Definition returns_nil (req : Request) : bool :=
  match req with
  | ReqGetNodeVersion | ReqGetNodeID | ReqGetNetworkID | ReqGetNetworkName
  | ReqPeers | ReqStacktrace => true
  | _ => false
  end.

Definition is_alias_chain (req : Request) : bool :=
  match req with ReqAliasChain _ => true | _ => false end.

Definition is_stacktrace (req : Request) : bool :=
  match req with ReqStacktrace => true | _ => false end.

(** The requests whose handlers call [AddAliasesWithReadLock]. *)
Definition aliasing_request (req : Request) : bool :=
  match req with ReqAlias _ | ReqAliasChain _ => true | _ => false end.

(** The calls of a response that went to a collaborator other than the
    logger, and the debug lines. *)
Definition collaborator_calls (r : Response) : list Call :=
  List.filter (fun c => negb (is_debug c)) (map ev_call (resp_events r)).

Definition debug_lines (r : Response) : list Call :=
  List.filter is_debug (map ev_call (resp_events r)).

(** The end of a run. *)
Definition service_after (reqs : list Request) (service : Admin) (w : World) : Admin :=
  snd (fst (serve_all reqs service w)).

Definition world_after (reqs : list Request) (service : Admin) (w : World) : World :=
  snd (serve_all reqs service w).

Definition log_of (reqs : list Request) (service : Admin) (w : World)
    : list (Request * Response) :=
  fst (fst (serve_all reqs service w)).

End Service.

Arguments Return {ShortID ID Err R} err.
Arguments Assign {ShortID ID Err R} upd k.
Arguments Invoke {ShortID ID Err R} c k.
Arguments inv_call {ShortID ID Err R} _.
Arguments inv_resp {ShortID ID Err R} _.
Arguments inv_reply {ShortID ID Err R} _.
Arguments out_err {Version ShortID ID Err Performance Manager Server Network Runtime R} _.
Arguments out_reply {Version ShortID ID Err Performance Manager Server Network Runtime R} _.
Arguments out_service {Version ShortID ID Err Performance Manager Server Network Runtime R} _.
Arguments out_world {Version ShortID ID Err Performance Manager Server Network Runtime R} _.
Arguments out_calls {Version ShortID ID Err Performance Manager Server Network Runtime R} _.
Arguments calls_of {Version ShortID ID Err Performance Manager Server Network Runtime R} o.
Arguments calls_with {Version ShortID ID Err Performance Manager Server Network Runtime R A} field o.

(** ** The collaborators as the specification describes them

    service.go calls into the chain manager, the API server, the network
    and [Performance]; none of them is defined in the files at hand.  The
    definitions below follow the specification and serve as the concrete
    collaborators of the development. *)

(** The error taxonomy of the specification (section 7); the last case
    stands for an error of a collaborator that the taxonomy does not
    name. *)
Inductive AdminError : Type :=
| NotFound
| AlreadyInProgress
| NotInProgress
| IOError
| CollaboratorError (msg : string).

(** Modelled from the spec: the chain manager ([chains.Manager]) is not
    under src/.  [ChainResolver.Lookup(alias) -> (chainID, error)] answers
    from the names registered so far and reports NotFound on a miss, with
    the zero identifier; chain identifiers are kept as their string
    rendering. *)
Definition ChainResolver_Lookup (m : gmap string string) (alias : string)
    : string * option AdminError :=
  match m !! alias with
  | Some chainID => (chainID, None)
  | None => ("", Some NotFound)
  end.

(** Modelled from the spec: [ChainResolver.RegisterAlias(chainID, alias)]
    of the absent chain manager registers the alias so that future
    lookups by alias succeed. *)
Definition ChainResolver_RegisterAlias (m : gmap string string) (chainID alias : string)
    : gmap string string * option AdminError :=
  (<[alias := chainID]> m, None).

(** Modelled from the spec: [ids.ID] and its [String] are not under
    src/; the chain identifiers of the model are kept as their rendering,
    as in [abc123] of section 8. *)
Definition chainID_String (chainID : string) : string := chainID.

(** Modelled from the spec: the routing table of the absent API server
    holds the alias entries (alias name to routing path, many aliases per
    path); a name resolves to the path whose handler it exposes. *)
Definition RoutingTable_resolve (t : gmap string string) (name : string) : string :=
  default name (t !! name).

(** Modelled from the spec: [RoutingTable.RegisterAliasUnderReadIntent
    (path, alias) -> error] of the absent API server.  The specification
    leaves open when the registration fails; in this model a name that is
    already an alias is refused, and a refused registration adds
    nothing. *)
Definition RoutingTable_RegisterAlias (t : gmap string string) (path : string)
    (aliases : list string) : gmap string string * option AdminError :=
  if existsb (fun a => bool_decide (is_Some (t !! a))) aliases
  then (t, Some (CollaboratorError "alias already exists"))
  else (foldr (fun a acc => <[a := RoutingTable_resolve t path]> acc) t aliases, None).

(** Modelled from the spec: the profiler state of section 3, which the
    absent struct [Performance] carries: Idle, or CPUProfiling with the
    output path that is open.  Idle is the zero value. *)
Inductive ProfilerState : Type :=
| Idle
| CPUProfiling (path : string).

(** Modelled from the spec: what the profiling facility behind the
    absent struct [Performance] writes, a CPU profile that is open or
    closed, a heap snapshot or a lock-contention snapshot. *)
Inductive Profile : Type :=
| CPUSamples (closed : bool)
| HeapSnapshot
| LockSnapshot.

(** Modelled from the spec: the file system and the runtime that the
    absent profiling code works on: the paths at which no file can be
    created, the profiles written so far, and the current stacks of the
    process. *)
Record Backend := {
  unwritable : gset string;
  files : gmap string Profile;
  stacks : string
}.

Definition write_profile (path : string) (p : Profile) (b : Backend) : Backend :=
  {| unwritable := unwritable b; files := <[path := p]> (files b); stacks := stacks b |}.

(** Modelled from the spec: [StartCPUProfiler(filename)] of the absent
    struct [Performance], section 4.2: Idle to CPUProfiling, opening the
    target file; AlreadyInProgress when already CPUProfiling, IOError when
    the file cannot be created; the state is the one before the call
    after a failure. *)
Definition ProfilerController_StartCPUProfiler (st : ProfilerState) (b : Backend)
    (filename : string) : ProfilerState * Backend * option AdminError :=
  match st with
  | CPUProfiling _ => (st, b, Some AlreadyInProgress)
  | Idle =>
      if bool_decide (filename ∈ unwritable b)
      then (Idle, b, Some IOError)
      else (CPUProfiling filename, write_profile filename (CPUSamples false) b, None)
  end.

(** Modelled from the spec: [StopCPUProfiler()] of the absent struct
    [Performance], section 4.2: CPUProfiling to Idle, flushing and closing
    the profile output; NotInProgress when Idle. *)
Definition ProfilerController_StopCPUProfiler (st : ProfilerState) (b : Backend)
    : ProfilerState * Backend * option AdminError :=
  match st with
  | Idle => (Idle, b, Some NotInProgress)
  | CPUProfiling path => (Idle, write_profile path (CPUSamples true) b, None)
  end.

(** Modelled from the spec: [MemoryProfile(filename)] and
    [LockProfile(filename)] of the absent struct [Performance], section
    4.2: stateless, one snapshot written, permitted in either state,
    IOError when the file cannot be created. *)
Definition ProfilerController_snapshot (kind : Profile) (st : ProfilerState) (b : Backend)
    (filename : string) : ProfilerState * Backend * option AdminError :=
  if bool_decide (filename ∈ unwritable b)
  then (st, b, Some IOError)
  else (st, write_profile filename kind b, None).

(** Modelled from the spec: [MemoryProfile(filename)] of the absent
    struct [Performance] writes one heap snapshot. *)
Definition ProfilerController_MemoryProfile := ProfilerController_snapshot HeapSnapshot.

(** Modelled from the spec: [LockProfile(filename)] of the absent struct
    [Performance] writes one lock-contention snapshot, under the contract
    of MemoryProfile. *)
Definition ProfilerController_LockProfile := ProfilerController_snapshot LockSnapshot.

(** Modelled from the spec: [NetworkDirectory.SnapshotPeers()] of the
    absent network hands out the peer records as they are at the time of
    the call; [StackDumper.CurrentGlobalStack()] reads the stacks of the
    process. *)
Definition spec_collaborators {ShortID : Type}
    : @Collaborators ShortID string AdminError ProfilerState
        (gmap string string) (gmap string string) (list (@PeerID ShortID)) Backend :=
  {| Manager_Lookup := ChainResolver_Lookup;
     Manager_Alias := ChainResolver_RegisterAlias;
     Server_AddAliasesWithReadLock := RoutingTable_RegisterAlias;
     Network_Peers := fun peers => peers;
     Performance_StartCPUProfiler := ProfilerController_StartCPUProfiler;
     Performance_StopCPUProfiler := ProfilerController_StopCPUProfiler;
     Performance_MemoryProfile := ProfilerController_MemoryProfile;
     Performance_LockProfile := ProfilerController_LockProfile;
     Stacktrace_String := fun b _ => stacks b |}.

(** A small node for the examples: version and node identifier are kept
    as strings, chain [C] is known to the chain manager as [abc123]. *)
Definition example_service : @Admin string string ProfilerState :=
  NewService Idle "gecko/0.5.0" "NodeID-1" 3%Z 1%N 2%N 3%N 4%N.

Definition example_world
    : @World (gmap string string) (gmap string string) (list (@PeerID string)) Backend :=
  {| chains := {[ "C" := "abc123" ]};
     server := ∅;
     network := [];
     runtime := {| unwritable := {[ "/proc/denied" ]}; files := ∅; stacks := "goroutine 1 [running]" |} |}.

Definition example_NetworkName (networkID : Z) : string :=
  if (networkID =? 3)%Z then "cascade" else "network-" +:+ "unknown".

(** The same node after an operator has given the name [bc/myalias] to
    another endpoint. *)
Definition occupied_world
    : @World (gmap string string) (gmap string string) (list (@PeerID string)) Backend :=
  {| chains := {[ "C" := "abc123" ]};
     server := {[ "bc/myalias" := "bc/other" ]};
     network := [];
     runtime := runtime example_world |}.

(** The all-or-nothing reading of [AliasChain], on the modelled
    collaborators: a call that succeeds has the alias registered with the
    chain manager and the route alias registered with the routing table;
    a call that fails has changed both of them or neither. *)
Definition AliasChain_all_or_nothing {Version ShortID : Type}
    (service : @Admin Version ShortID ProfilerState)
    (w : @World (gmap string string) (gmap string string) (list (@PeerID ShortID)) Backend)
    (args : AliasChainArgs) : Prop :=
  let o := exec spec_collaborators (AliasChain chainID_String service args)
                {| AliasChainReply_Success := false |} service w in
  match out_err o with
  | None =>
      is_Some (chains (out_world o) !! AliasChainArgs_Alias args)
      /\ is_Some (server (out_world o) !! ("bc/" +:+ AliasChainArgs_Alias args))
  | Some _ =>
      chains (out_world o) = chains w <-> server (out_world o) = server w
  end.

(** Requests to the example node, and a run of the CPU profiler on it:
    two Starts, then two Stops. *)
Definition example_serve
    : Request -> @Admin string string ProfilerState ->
      @World (gmap string string) (gmap string string) (list (@PeerID string)) Backend ->
      Response :=
  serve (fun v : string => v) chainID_String example_NetworkName "" spec_collaborators.

Definition example_first_start : Request * Response :=
  let req := ReqStartCPUProfiler {| StartCPUProfilerArgs_Filename := "cpu.prof" |} in
  (req, example_serve req example_service example_world).

Definition example_second_start : Request * Response :=
  let req := ReqStartCPUProfiler {| StartCPUProfilerArgs_Filename := "again.prof" |} in
  (req, example_serve req (resp_service (snd example_first_start))
                      (resp_world (snd example_first_start))).

Definition example_run : list Request :=
  [ReqStartCPUProfiler {| StartCPUProfilerArgs_Filename := "cpu.prof" |};
   ReqStartCPUProfiler {| StartCPUProfilerArgs_Filename := "again.prof" |};
   ReqStopCPUProfiler;
   ReqStopCPUProfiler].

Definition example_log : list (Request * Response) :=
  fst (fst (serve_all (fun v : string => v) chainID_String example_NetworkName ""
                      spec_collaborators example_run example_service example_world)).

(** The lookup of a name the example chain manager does not know, as the
    handler of GetBlockchainID sees it. *)
Definition example_miss : @Event string string AdminError :=
  {| ev_call := chainManager_Lookup "nope"; ev_resp := ("", Some NotFound) |}.

(** * The messages of ghttp.proto (package [ghttpproto])

    The generated message structs with their getters and [Reset].  A
    pointer to a message is an [option], nil being [None]; a slice is a
    list, the nil slice being the empty list; the integer fields hold
    their value as a [Z]. *)

Module ghttpproto.

Record Userinfo : Type := {
  Userinfo_Username : string;
  Userinfo_Password : string;
  Userinfo_PasswordSet : bool;
  Userinfo_XXX_NoUnkeyedLiteral : unit;
  Userinfo_XXX_unrecognized : list Byte.byte;
  Userinfo_XXX_sizecache : Z
}.

(** [Userinfo{}], every field at its zero value. *)
Definition Userinfo_zero : Userinfo :=
  {| Userinfo_Username := "";
     Userinfo_Password := "";
     Userinfo_PasswordSet := false;
     Userinfo_XXX_NoUnkeyedLiteral := tt;
     Userinfo_XXX_unrecognized := [];
     Userinfo_XXX_sizecache := 0%Z |}.

(** [*m = Userinfo{}], for a receiver that is not nil. *)
Definition Userinfo_Reset (m : Userinfo) : Userinfo := Userinfo_zero.

Definition Userinfo_GetUsername (m : option Userinfo) : string :=
  match m with
  | Some m => Userinfo_Username m
  | None => ""
  end.

Definition Userinfo_GetPassword (m : option Userinfo) : string :=
  match m with
  | Some m => Userinfo_Password m
  | None => ""
  end.

Definition Userinfo_GetPasswordSet (m : option Userinfo) : bool :=
  match m with
  | Some m => Userinfo_PasswordSet m
  | None => false
  end.

Record URL : Type := {
  URL_Scheme : string;
  URL_Opaque : string;
  URL_User : option Userinfo;
  URL_Host : string;
  URL_Path : string;
  URL_RawPath : string;
  URL_ForceQuery : bool;
  URL_RawQuery : string;
  URL_Fragment : string;
  URL_XXX_NoUnkeyedLiteral : unit;
  URL_XXX_unrecognized : list Byte.byte;
  URL_XXX_sizecache : Z
}.

(** [URL{}], every field at its zero value. *)
Definition URL_zero : URL :=
  {| URL_Scheme := "";
     URL_Opaque := "";
     URL_User := None;
     URL_Host := "";
     URL_Path := "";
     URL_RawPath := "";
     URL_ForceQuery := false;
     URL_RawQuery := "";
     URL_Fragment := "";
     URL_XXX_NoUnkeyedLiteral := tt;
     URL_XXX_unrecognized := [];
     URL_XXX_sizecache := 0%Z |}.

(** [*m = URL{}], for a receiver that is not nil. *)
Definition URL_Reset (m : URL) : URL := URL_zero.

Definition URL_GetScheme (m : option URL) : string :=
  match m with
  | Some m => URL_Scheme m
  | None => ""
  end.

Definition URL_GetOpaque (m : option URL) : string :=
  match m with
  | Some m => URL_Opaque m
  | None => ""
  end.

Definition URL_GetUser (m : option URL) : option Userinfo :=
  match m with
  | Some m => URL_User m
  | None => None
  end.

Definition URL_GetHost (m : option URL) : string :=
  match m with
  | Some m => URL_Host m
  | None => ""
  end.

Definition URL_GetPath (m : option URL) : string :=
  match m with
  | Some m => URL_Path m
  | None => ""
  end.

Definition URL_GetRawPath (m : option URL) : string :=
  match m with
  | Some m => URL_RawPath m
  | None => ""
  end.

Definition URL_GetForceQuery (m : option URL) : bool :=
  match m with
  | Some m => URL_ForceQuery m
  | None => false
  end.

Definition URL_GetRawQuery (m : option URL) : string :=
  match m with
  | Some m => URL_RawQuery m
  | None => ""
  end.

Definition URL_GetFragment (m : option URL) : string :=
  match m with
  | Some m => URL_Fragment m
  | None => ""
  end.

Record Element : Type := {
  Element_Key : string;
  Element_Values : list string;
  Element_XXX_NoUnkeyedLiteral : unit;
  Element_XXX_unrecognized : list Byte.byte;
  Element_XXX_sizecache : Z
}.

(** [Element{}], every field at its zero value. *)
Definition Element_zero : Element :=
  {| Element_Key := "";
     Element_Values := [];
     Element_XXX_NoUnkeyedLiteral := tt;
     Element_XXX_unrecognized := [];
     Element_XXX_sizecache := 0%Z |}.

(** [*m = Element{}], for a receiver that is not nil. *)
Definition Element_Reset (m : Element) : Element := Element_zero.

Definition Element_GetKey (m : option Element) : string :=
  match m with
  | Some m => Element_Key m
  | None => ""
  end.

Definition Element_GetValues (m : option Element) : list string :=
  match m with
  | Some m => Element_Values m
  | None => []
  end.

Record Certificates : Type := {
  Certificates_Cert : list (list Byte.byte);
  Certificates_XXX_NoUnkeyedLiteral : unit;
  Certificates_XXX_unrecognized : list Byte.byte;
  Certificates_XXX_sizecache : Z
}.

(** [Certificates{}], every field at its zero value. *)
Definition Certificates_zero : Certificates :=
  {| Certificates_Cert := [];
     Certificates_XXX_NoUnkeyedLiteral := tt;
     Certificates_XXX_unrecognized := [];
     Certificates_XXX_sizecache := 0%Z |}.

(** [*m = Certificates{}], for a receiver that is not nil. *)
Definition Certificates_Reset (m : Certificates) : Certificates := Certificates_zero.

Definition Certificates_GetCert (m : option Certificates) : list (list Byte.byte) :=
  match m with
  | Some m => Certificates_Cert m
  | None => []
  end.

Record ConnectionState : Type := {
  ConnectionState_Version : Z;
  ConnectionState_HandshakeComplete : bool;
  ConnectionState_DidResume : bool;
  ConnectionState_CipherSuite : Z;
  ConnectionState_NegotiatedProtocol : string;
  ConnectionState_NegotiatedProtocolIsMutual : bool;
  ConnectionState_ServerName : string;
  ConnectionState_PeerCertificates : option Certificates;
  ConnectionState_VerifiedChains : list (option Certificates);
  ConnectionState_SignedCertificateTimestamps : list (list Byte.byte);
  ConnectionState_OcspResponse : list Byte.byte;
  ConnectionState_TlsUnique : list Byte.byte;
  ConnectionState_XXX_NoUnkeyedLiteral : unit;
  ConnectionState_XXX_unrecognized : list Byte.byte;
  ConnectionState_XXX_sizecache : Z
}.

(** [ConnectionState{}], every field at its zero value. *)
Definition ConnectionState_zero : ConnectionState :=
  {| ConnectionState_Version := 0%Z;
     ConnectionState_HandshakeComplete := false;
     ConnectionState_DidResume := false;
     ConnectionState_CipherSuite := 0%Z;
     ConnectionState_NegotiatedProtocol := "";
     ConnectionState_NegotiatedProtocolIsMutual := false;
     ConnectionState_ServerName := "";
     ConnectionState_PeerCertificates := None;
     ConnectionState_VerifiedChains := [];
     ConnectionState_SignedCertificateTimestamps := [];
     ConnectionState_OcspResponse := [];
     ConnectionState_TlsUnique := [];
     ConnectionState_XXX_NoUnkeyedLiteral := tt;
     ConnectionState_XXX_unrecognized := [];
     ConnectionState_XXX_sizecache := 0%Z |}.

(** [*m = ConnectionState{}], for a receiver that is not nil. *)
Definition ConnectionState_Reset (m : ConnectionState) : ConnectionState := ConnectionState_zero.

Definition ConnectionState_GetVersion (m : option ConnectionState) : Z :=
  match m with
  | Some m => ConnectionState_Version m
  | None => 0%Z
  end.

Definition ConnectionState_GetHandshakeComplete (m : option ConnectionState) : bool :=
  match m with
  | Some m => ConnectionState_HandshakeComplete m
  | None => false
  end.

Definition ConnectionState_GetDidResume (m : option ConnectionState) : bool :=
  match m with
  | Some m => ConnectionState_DidResume m
  | None => false
  end.

Definition ConnectionState_GetCipherSuite (m : option ConnectionState) : Z :=
  match m with
  | Some m => ConnectionState_CipherSuite m
  | None => 0%Z
  end.

Definition ConnectionState_GetNegotiatedProtocol (m : option ConnectionState) : string :=
  match m with
  | Some m => ConnectionState_NegotiatedProtocol m
  | None => ""
  end.

Definition ConnectionState_GetNegotiatedProtocolIsMutual (m : option ConnectionState) : bool :=
  match m with
  | Some m => ConnectionState_NegotiatedProtocolIsMutual m
  | None => false
  end.

Definition ConnectionState_GetServerName (m : option ConnectionState) : string :=
  match m with
  | Some m => ConnectionState_ServerName m
  | None => ""
  end.

Definition ConnectionState_GetPeerCertificates (m : option ConnectionState) : option Certificates :=
  match m with
  | Some m => ConnectionState_PeerCertificates m
  | None => None
  end.

Definition ConnectionState_GetVerifiedChains (m : option ConnectionState) : list (option Certificates) :=
  match m with
  | Some m => ConnectionState_VerifiedChains m
  | None => []
  end.

Definition ConnectionState_GetSignedCertificateTimestamps (m : option ConnectionState) : list (list Byte.byte) :=
  match m with
  | Some m => ConnectionState_SignedCertificateTimestamps m
  | None => []
  end.

Definition ConnectionState_GetOcspResponse (m : option ConnectionState) : list Byte.byte :=
  match m with
  | Some m => ConnectionState_OcspResponse m
  | None => []
  end.

Definition ConnectionState_GetTlsUnique (m : option ConnectionState) : list Byte.byte :=
  match m with
  | Some m => ConnectionState_TlsUnique m
  | None => []
  end.

Record Request : Type := {
  Request_Method : string;
  Request_Url : option URL;
  Request_Proto : string;
  Request_ProtoMajor : Z;
  Request_ProtoMinor : Z;
  Request_Header : list (option Element);
  Request_Body : Z;
  Request_ContentLength : Z;
  Request_TransferEncoding : list string;
  Request_Host : string;
  Request_Form : list (option Element);
  Request_PostForm : list (option Element);
  Request_TrailerKeys : list string;
  Request_RemoteAddr : string;
  Request_RequestURI : string;
  Request_Tls : option ConnectionState;
  Request_XXX_NoUnkeyedLiteral : unit;
  Request_XXX_unrecognized : list Byte.byte;
  Request_XXX_sizecache : Z
}.

(** [Request{}], every field at its zero value. *)
Definition Request_zero : Request :=
  {| Request_Method := "";
     Request_Url := None;
     Request_Proto := "";
     Request_ProtoMajor := 0%Z;
     Request_ProtoMinor := 0%Z;
     Request_Header := [];
     Request_Body := 0%Z;
     Request_ContentLength := 0%Z;
     Request_TransferEncoding := [];
     Request_Host := "";
     Request_Form := [];
     Request_PostForm := [];
     Request_TrailerKeys := [];
     Request_RemoteAddr := "";
     Request_RequestURI := "";
     Request_Tls := None;
     Request_XXX_NoUnkeyedLiteral := tt;
     Request_XXX_unrecognized := [];
     Request_XXX_sizecache := 0%Z |}.

(** [*m = Request{}], for a receiver that is not nil. *)
Definition Request_Reset (m : Request) : Request := Request_zero.

Definition Request_GetMethod (m : option Request) : string :=
  match m with
  | Some m => Request_Method m
  | None => ""
  end.

Definition Request_GetUrl (m : option Request) : option URL :=
  match m with
  | Some m => Request_Url m
  | None => None
  end.

Definition Request_GetProto (m : option Request) : string :=
  match m with
  | Some m => Request_Proto m
  | None => ""
  end.

Definition Request_GetProtoMajor (m : option Request) : Z :=
  match m with
  | Some m => Request_ProtoMajor m
  | None => 0%Z
  end.

Definition Request_GetProtoMinor (m : option Request) : Z :=
  match m with
  | Some m => Request_ProtoMinor m
  | None => 0%Z
  end.

Definition Request_GetHeader (m : option Request) : list (option Element) :=
  match m with
  | Some m => Request_Header m
  | None => []
  end.

Definition Request_GetBody (m : option Request) : Z :=
  match m with
  | Some m => Request_Body m
  | None => 0%Z
  end.

Definition Request_GetContentLength (m : option Request) : Z :=
  match m with
  | Some m => Request_ContentLength m
  | None => 0%Z
  end.

Definition Request_GetTransferEncoding (m : option Request) : list string :=
  match m with
  | Some m => Request_TransferEncoding m
  | None => []
  end.

Definition Request_GetHost (m : option Request) : string :=
  match m with
  | Some m => Request_Host m
  | None => ""
  end.

Definition Request_GetForm (m : option Request) : list (option Element) :=
  match m with
  | Some m => Request_Form m
  | None => []
  end.

Definition Request_GetPostForm (m : option Request) : list (option Element) :=
  match m with
  | Some m => Request_PostForm m
  | None => []
  end.

Definition Request_GetTrailerKeys (m : option Request) : list string :=
  match m with
  | Some m => Request_TrailerKeys m
  | None => []
  end.

Definition Request_GetRemoteAddr (m : option Request) : string :=
  match m with
  | Some m => Request_RemoteAddr m
  | None => ""
  end.

Definition Request_GetRequestURI (m : option Request) : string :=
  match m with
  | Some m => Request_RequestURI m
  | None => ""
  end.

Definition Request_GetTls (m : option Request) : option ConnectionState :=
  match m with
  | Some m => Request_Tls m
  | None => None
  end.

Record HTTPRequest : Type := {
  HTTPRequest_ResponseWriter : Z;
  HTTPRequest_Request : option Request;
  HTTPRequest_XXX_NoUnkeyedLiteral : unit;
  HTTPRequest_XXX_unrecognized : list Byte.byte;
  HTTPRequest_XXX_sizecache : Z
}.

(** [HTTPRequest{}], every field at its zero value. *)
Definition HTTPRequest_zero : HTTPRequest :=
  {| HTTPRequest_ResponseWriter := 0%Z;
     HTTPRequest_Request := None;
     HTTPRequest_XXX_NoUnkeyedLiteral := tt;
     HTTPRequest_XXX_unrecognized := [];
     HTTPRequest_XXX_sizecache := 0%Z |}.

(** [*m = HTTPRequest{}], for a receiver that is not nil. *)
Definition HTTPRequest_Reset (m : HTTPRequest) : HTTPRequest := HTTPRequest_zero.

Definition HTTPRequest_GetResponseWriter (m : option HTTPRequest) : Z :=
  match m with
  | Some m => HTTPRequest_ResponseWriter m
  | None => 0%Z
  end.

Definition HTTPRequest_GetRequest (m : option HTTPRequest) : option Request :=
  match m with
  | Some m => HTTPRequest_Request m
  | None => None
  end.

Record HTTPResponse : Type := {
  HTTPResponse_XXX_NoUnkeyedLiteral : unit;
  HTTPResponse_XXX_unrecognized : list Byte.byte;
  HTTPResponse_XXX_sizecache : Z
}.

(** [HTTPResponse{}], every field at its zero value. *)
Definition HTTPResponse_zero : HTTPResponse :=
  {| HTTPResponse_XXX_NoUnkeyedLiteral := tt;
     HTTPResponse_XXX_unrecognized := [];
     HTTPResponse_XXX_sizecache := 0%Z |}.

(** [*m = HTTPResponse{}], for a receiver that is not nil. *)
Definition HTTPResponse_Reset (m : HTTPResponse) : HTTPResponse := HTTPResponse_zero.

(** ** The client and server stubs of the HTTP service

    The gRPC runtime is outside the package: the connection a client
    invokes on, the decoder and the interceptor a server handler is given,
    and the status errors.  They are parameters here; the stubs are the
    generated code. *)

Section Stubs.

Context {Ctx CallOption Err Code Conn S Other : Type}.

(** [status.Errorf] and [codes.Unimplemented]. *)
Variable status_Errorf : Code -> string -> Err.
Variable codes_Unimplemented : Code.

(** [grpc.ClientConnInterface.Invoke(ctx, method, args, reply, opts...)]:
    what it makes of the reply it was handed, and its error. *)
Variable Invoke :
  Conn -> Ctx -> string -> option HTTPRequest -> HTTPResponse -> list CallOption ->
  Conn * HTTPResponse * option Err.

(** The field [cc] holds an interface value: the address of the
    connection, whose state the caller passes along. *)
Record hTTPClient : Type := { hTTPClient_cc : N }.

Definition NewHTTPClient (cc : N) : hTTPClient := {| hTTPClient_cc := cc |}.

Definition hTTPClient_Handle (c : hTTPClient) (ctx : Ctx) (in_ : option HTTPRequest)
    (opts : list CallOption) (conn : Conn) : option HTTPResponse * option Err * Conn :=
  let out := HTTPResponse_zero in
  let '(conn', out', err) := Invoke conn ctx "/ghttpproto.HTTP/Handle" in_ out opts in
  match err with
  | Some _ => (None, err, conn')
  | None => (Some out', None, conn')
  end.

(** An implementation of the interface [HTTPServer], working on the state
    [S] of the server process. *)
Definition HTTPServer : Type :=
  Ctx -> option HTTPRequest -> S -> option HTTPResponse * option Err * S.

Definition UnimplementedHTTPServer_Handle : HTTPServer :=
  fun ctx req s =>
    (None, Some (status_Errorf codes_Unimplemented "method Handle not implemented"), s).

(** A value of type [interface{}], by its dynamic type: nil, a pointer to
    a request, a pointer to a response, a value that implements
    [HTTPServer], or a value of any other type. *)
Inductive Any : Type :=
| Any_nil
| Any_HTTPRequest (p : option HTTPRequest)
| Any_HTTPResponse (p : option HTTPResponse)
| Any_HTTPServer (srv : HTTPServer)
| Any_other (v : Other).

(** What a call that returns [(interface{}, error)] comes to: it returns,
    or a type assertion in it panics. *)
Inductive Result : Type :=
| Panic
| Returned (v : Any) (err : option Err).

Record UnaryServerInfo : Type := {
  UnaryServerInfo_Server : Any;
  UnaryServerInfo_FullMethod : string
}.

Definition UnaryHandler : Type := Ctx -> Any -> S -> Result * S.

Definition UnaryServerInterceptor : Type :=
  Ctx -> Any -> UnaryServerInfo -> UnaryHandler -> S -> Result * S.

(** [dec], which fills in the request it is pointed at. *)
Definition Decoder : Type := HTTPRequest -> S -> HTTPRequest * option Err * S.

(** [srv.(HTTPServer).Handle(ctx, req)], with its two results converted
    to [(interface{}, error)]. *)
Definition call_Handle (srv : Any) (ctx : Ctx) (req : option HTTPRequest) (s : S)
    : Result * S :=
  match srv with
  | Any_HTTPServer impl =>
      let '(resp, err, s') := impl ctx req s in
      (Returned (Any_HTTPResponse resp) err, s')
  | _ => (Panic, s)
  end.

Definition _HTTP_Handle_Handler (srv : Any) (ctx : Ctx) (dec : Decoder)
    (interceptor : option UnaryServerInterceptor) (s : S) : Result * S :=
  let '(in_, err, s1) := dec HTTPRequest_zero s in
  match err with
  | Some _ => (Returned Any_nil err, s1)
  | None =>
      match interceptor with
      | None => call_Handle srv ctx (Some in_) s1
      | Some intercept =>
          let info := {| UnaryServerInfo_Server := srv;
                         UnaryServerInfo_FullMethod := "/ghttpproto.HTTP/Handle" |} in
          let handler : UnaryHandler :=
            fun ctx req s =>
              match req with
              | Any_HTTPRequest p => call_Handle srv ctx p s
              | _ => (Panic, s)
              end in
          intercept ctx (Any_HTTPRequest (Some in_)) info handler s1
      end
  end.

Record MethodDesc : Type := {
  MethodDesc_MethodName : string;
  MethodDesc_Handler : Any -> Ctx -> Decoder -> option UnaryServerInterceptor -> S -> Result * S
}.

(** [_HTTP_serviceDesc]; it has no streams, and its handler type is the
    interface [HTTPServer]. *)
Record ServiceDesc : Type := {
  ServiceDesc_ServiceName : string;
  ServiceDesc_Methods : list MethodDesc;
  ServiceDesc_Streams : list Empty_set;
  ServiceDesc_Metadata : string
}.

Definition _HTTP_serviceDesc : ServiceDesc :=
  {| ServiceDesc_ServiceName := "ghttpproto.HTTP";
     ServiceDesc_Methods :=
       [{| MethodDesc_MethodName := "Handle"; MethodDesc_Handler := _HTTP_Handle_Handler |}];
     ServiceDesc_Streams := [];
     ServiceDesc_Metadata := "ghttp.proto" |}.

(** The full names under which the runtime routes the methods of a
    service: [/<service>/<method>]. *)
Definition full_method_names (d : ServiceDesc) : list string :=
  map (fun m => "/" +:+ ServiceDesc_ServiceName d +:+ "/" +:+ MethodDesc_MethodName m)
      (ServiceDesc_Methods d).

(** The interceptor that does nothing but call the handler it is given. *)
Definition pass_through : UnaryServerInterceptor :=
  fun ctx req info handler s => handler ctx req s.

End Stubs.

End ghttpproto.

(** Further runs on the example node: one of reads only, and one of
    alias registrations with a read at its end. *)
Definition example_reads : list Request :=
  [ReqGetNodeVersion;
   ReqGetBlockchainID {| GetBlockchainIDArgs_Alias := "nope" |};
   ReqPeers;
   ReqStacktrace].

Definition example_aliasing : list Request :=
  [ReqAliasChain {| AliasChainArgs_Chain := "C"; AliasChainArgs_Alias := "myalias" |};
   ReqAlias {| AliasArgs_Endpoint := "bc/abc123"; AliasArgs_Alias := "second" |};
   ReqGetNodeID].

(** A gRPC server process for the examples: its state counts the requests
    served; one decoder accepts what it is sent, the other refuses it. *)
Definition example_decoder : @ghttpproto.Decoder string nat :=
  fun m served => (m, None, served).

Definition example_broken_decoder : @ghttpproto.Decoder string nat :=
  fun m served => (m, Some "malformed request", served).

Definition example_server : @ghttpproto.HTTPServer unit string nat :=
  fun _ _ served => (Some ghttpproto.HTTPResponse_zero, None, S served).

(** * Properties of the handlers, for every implementation of the collaborators *)

Ltac break_match :=
  match goal with
  | |- context [match ?t with _ => _ end] => destruct t eqn:?
  | H : context [match ?t with _ => _ end] |- _ => destruct t eqn:?
  end.

Ltac run_handler := repeat (cbn in *; try break_match).

Section Properties.

Context {Version ShortID ID Err Performance Manager Server Network Runtime : Type}.
Variable Version_String : Version -> string.
Variable ID_String : ID -> string.
Variable genesis_NetworkName : Z -> string.
Variable ShortID_zero : ShortID.
Variable Performance_zero : Performance.
Variable impl : @Collaborators ShortID ID Err Performance Manager Server Network Runtime.

Local Abbreviation Admin' := (@Admin Version ShortID Performance).
Local Abbreviation World' := (@World Manager Server Network Runtime).
Local Abbreviation serve' :=
  (serve Version_String ID_String genesis_NetworkName ShortID_zero impl).
Local Abbreviation serve_all' :=
  (serve_all Version_String ID_String genesis_NetworkName ShortID_zero impl).

Lemma same_wiring_refl (s : Admin') : same_wiring s s.
Proof. repeat split. Qed.

Lemma same_wiring_trans (s1 s2 s3 : Admin') :
  same_wiring s1 s2 -> same_wiring s2 s3 -> same_wiring s1 s3.
Proof.
  unfold same_wiring. intros H12 H23.
  destruct H12 as (? & ? & ? & ? & ? & ? & ?), H23 as (? & ? & ? & ? & ? & ? & ?).
  repeat split; congruence.
Qed.

Lemma same_wiring_set_performance (p : Performance) (s : Admin') :
  same_wiring s (set_performance p s).
Proof. repeat split. Qed.

Lemma perform_same_wiring (c : Call) (service : Admin') (w : World') :
  same_wiring service (snd (fst (perform impl c service w))).
Proof.
  destruct c; cbn; try apply same_wiring_refl.
  - destruct (Manager_Alias impl (chains w) chainID alias); apply same_wiring_refl.
  - destruct (Server_AddAliasesWithReadLock impl (server w) endpoint aliases);
      apply same_wiring_refl.
  - destruct (Performance_StartCPUProfiler impl _ _ _) as [[? ?] ?];
      apply same_wiring_set_performance.
  - destruct (Performance_StopCPUProfiler impl _ _) as [[? ?] ?];
      apply same_wiring_set_performance.
  - destruct (Performance_MemoryProfile impl _ _ _) as [[? ?] ?];
      apply same_wiring_set_performance.
  - destruct (Performance_LockProfile impl _ _ _) as [[? ?] ?];
      apply same_wiring_set_performance.
Qed.

Lemma exec_same_wiring {R : Type} (h : Handler R) :
  forall (reply : R) (service : Admin') (w : World'),
    same_wiring service (out_service (exec impl h reply service w)).
Proof.
  induction h as [err | upd k IH | c k IH]; intros reply service w; cbn.
  - apply same_wiring_refl.
  - apply IH.
  - pose proof (perform_same_wiring c service w) as Hp.
    destruct (perform impl c service w) as [[x service'] w']. cbn in *.
    eapply same_wiring_trans; [exact Hp | apply IH].
Qed.

Lemma serve_same_wiring (req : Request) (service : Admin') (w : World') :
  same_wiring service (resp_service (serve' req service w)).
Proof. destruct req; cbn [serve respond resp_service]; apply exec_same_wiring. Qed.

Lemma serve_all_same_wiring (reqs : list Request) :
  forall (service : Admin') (w : World'),
    same_wiring service (snd (fst (serve_all' reqs service w))).
Proof.
  induction reqs as [| req rest IH]; intros service w; cbn [serve_all].
  - apply same_wiring_refl.
  - specialize (IH (resp_service (serve' req service w)) (resp_world (serve' req service w))).
    destruct (serve_all' rest _ _) as [[rs s'] w']. cbn in *.
    eapply same_wiring_trans; [apply serve_same_wiring | exact IH].
Qed.

(** A run and its log: the log lists the requests in order, and a split
    of the log is a split of the run. *)
Lemma serve_all_head (reqs : list Request) (service service' : Admin') (w w' : World')
    (x : Request * Response) (l : list (Request * Response)) :
  serve_all' reqs service w = (x :: l, service', w') ->
  snd x = serve' (fst x) service w
  /\ serve_all' (map fst l) (resp_service (snd x)) (resp_world (snd x)) = (l, service', w').
Proof.
  revert service w x l.
  induction reqs as [| req rest IH]; intros service w x l Hrun; cbn [serve_all] in Hrun.
  - discriminate.
  - destruct (serve_all' rest _ _) as [[rs s1] w1] eqn:Hrest.
    injection Hrun as <- <- <- <-. cbn [fst snd]. split; [reflexivity |].
    destruct rs as [| y rs].
    + destruct rest; cbn [serve_all] in Hrest.
      * exact Hrest.
      * destruct (serve_all' rest _ _) as [[? ?] ?]. discriminate.
    + destruct (IH _ _ _ _ Hrest) as [Hy Htail].
      cbn [map serve_all]. rewrite <- Hy.
      rewrite Htail. destruct y; reflexivity.
Qed.

Lemma serve_all_split (l1 l2 : list (Request * Response)) :
  forall (reqs : list Request) (service service' : Admin') (w w' : World'),
    serve_all' reqs service w = (l1 ++ l2, service', w') ->
    exists (s1 : Admin') (w1 : World'),
      serve_all' (map fst l1) service w = (l1, s1, w1)
      /\ serve_all' (map fst l2) s1 w1 = (l2, service', w').
Proof.
  induction l1 as [| x l1 IH]; intros reqs service service' w w' Hrun.
  - exists service, w. split; [reflexivity |].
    cbn [app] in Hrun. destruct l2 as [| y l2].
    + destruct reqs; cbn [serve_all] in Hrun.
      * exact Hrun.
      * destruct (serve_all' reqs _ _) as [[? ?] ?]. discriminate.
    + destruct (serve_all_head _ _ _ _ _ _ _ Hrun) as [Hy Htail].
      cbn [map serve_all]. rewrite <- Hy. rewrite Htail. destruct y; reflexivity.
  - cbn [app] in Hrun.
    destruct (serve_all_head _ _ _ _ _ _ _ Hrun) as [Hx Htail].
    destruct (IH _ _ _ _ _ Htail) as (s1 & w1 & H1 & H2).
    exists s1, w1. split; [| exact H2].
    cbn [map serve_all]. rewrite <- Hx. rewrite H1. destruct x; reflexivity.
Qed.

(** What the four identity reads return, written out. *)
Lemma serve_GetNodeVersion (service : Admin') (w : World') :
  serve' ReqGetNodeVersion service w =
  {| resp_err := None;
     resp_reply :=
       RepGetNodeVersion {| GetNodeVersionReply_Version := Version_String (version service) |};
     resp_service := service;
     resp_world := w;
     resp_events :=
       [{| ev_call := log_Debug "Admin: GetNodeVersion called" []; ev_resp := tt |}] |}.
Proof. reflexivity. Qed.

Lemma serve_GetNodeID (service : Admin') (w : World') :
  serve' ReqGetNodeID service w =
  {| resp_err := None;
     resp_reply := RepGetNodeID {| GetNodeIDReply_NodeID := nodeID service |};
     resp_service := service;
     resp_world := w;
     resp_events := [{| ev_call := log_Debug "Admin: GetNodeID called" []; ev_resp := tt |}] |}.
Proof. reflexivity. Qed.

Lemma serve_GetNetworkID (service : Admin') (w : World') :
  serve' ReqGetNetworkID service w =
  {| resp_err := None;
     resp_reply := RepGetNetworkID {| GetNetworkIDReply_NetworkID := networkID service |};
     resp_service := service;
     resp_world := w;
     resp_events :=
       [{| ev_call := log_Debug "Admin: GetNetworkID called" []; ev_resp := tt |}] |}.
Proof. reflexivity. Qed.

Lemma serve_GetNetworkName (service : Admin') (w : World') :
  serve' ReqGetNetworkName service w =
  {| resp_err := None;
     resp_reply :=
       RepGetNetworkName
         {| GetNetworkNameReply_NetworkName := genesis_NetworkName (networkID service) |};
     resp_service := service;
     resp_world := w;
     resp_events :=
       [{| ev_call := log_Debug "Admin: GetNetworkName called" []; ev_resp := tt |}] |}.
Proof. reflexivity. Qed.

(** C6.  GetNodeVersion, GetNodeID, GetNetworkID and GetNetworkName are
    repeatable reads: two calls of the same operation, with any run of
    admin requests in between, return the same reply without an error,
    and neither call changes the service struct or the state of any
    collaborator; all either call does besides is hand its debug line to
    the logger. *)
Theorem identity_reads_repeatable :
  repeatable_read Version_String ID_String genesis_NetworkName ShortID_zero impl ReqGetNodeVersion
  /\ repeatable_read Version_String ID_String genesis_NetworkName ShortID_zero impl ReqGetNodeID
  /\ repeatable_read Version_String ID_String genesis_NetworkName ShortID_zero impl ReqGetNetworkID
  /\ repeatable_read Version_String ID_String genesis_NetworkName ShortID_zero impl
       ReqGetNetworkName.
Proof.
  unfold repeatable_read.
  repeat apply conj; intros reqs service w;
    rewrite ?serve_GetNodeVersion, ?serve_GetNodeID, ?serve_GetNetworkID,
      ?serve_GetNetworkName;
    cbn [resp_err resp_reply resp_service resp_world resp_events];
    destruct (serve_all_same_wiring reqs service w) as (Hv & Hn & Hnet & _);
    repeat apply conj; try reflexivity; congruence.
Qed.

(** C9.  GetBlockchainID writes the reply on every call: whatever the
    lookup returns, identifier and error, the reply holds the string
    rendering of that identifier and the handler returns that error, so
    after a failed lookup the reply holds the rendering of the identifier
    that came with the error. *)
Theorem GetBlockchainID_reply_always_written :
  forall (service : Admin') (w : World') (args : GetBlockchainIDArgs)
         (reply : GetBlockchainIDReply),
    let o := exec impl (GetBlockchainID ID_String service args) reply service w in
    let looked := Manager_Lookup impl (chains w) (GetBlockchainIDArgs_Alias args) in
    out_reply o = {| GetBlockchainIDReply_BlockchainID := ID_String (fst looked) |}
    /\ out_err o = snd looked.
Proof.
  intros service w args reply. cbn.
  destruct (Manager_Lookup impl (chains w) (GetBlockchainIDArgs_Alias args)) as [bID err].
  split; reflexivity.
Qed.

(** C3.  Whatever the operation, an error that a call to a collaborator
    returned while the request was handled is the error the handler
    returns, the very value. *)
Theorem collaborator_error_passed_through :
  forall (req : Request) (service : Admin') (w : World') (ev : Event) (e : Err),
    In ev (resp_events (serve' req service w)) ->
    call_error (ev_call ev) (ev_resp ev) = Some e ->
    resp_err (serve' req service w) = Some e.
Proof.
  intros req service w ev e Hin Herr.
  destruct req; cbn in Hin |- *.
  all: run_handler.
  all: repeat match goal with
         | H : _ \/ _ |- _ => destruct H as [H | H]
         | H : False |- _ => destruct H
         end.
  all: subst; cbn in *; try discriminate; try congruence.
Qed.

(** The calls of AliasChain, in order: the lookup of the chain reference,
    then the registration of the alias for the identifier found with the
    chain manager, then the registration with the API server of the alias
    [bc/<alias>] for the endpoint [bc/<identifier>], each step only after
    the one before returned no error; when the lookup fails nothing is
    registered and the world is as before. *)
Lemma AliasChain_call_sequence :
  forall (service : Admin') (w : World') (args : AliasChainArgs) (reply : AliasChainReply),
    let o := exec impl (AliasChain ID_String service args) reply service w in
    let debug := log_Debug "Admin: AliasChain called with Chain: %s, Alias: %s"
                   [AliasChainArgs_Chain args; AliasChainArgs_Alias args] in
    let looked := Manager_Lookup impl (chains w) (AliasChainArgs_Chain args) in
    let chainID := fst looked in
    let aliased := Manager_Alias impl (chains w) chainID (AliasChainArgs_Alias args) in
    let endpoint := "bc/" +:+ ID_String chainID in
    let route := "bc/" +:+ AliasChainArgs_Alias args in
    let routed := Server_AddAliasesWithReadLock impl (server w) endpoint [route] in
    match snd looked, snd aliased with
    | Some _, _ =>
        calls_of o = [debug; chainManager_Lookup (AliasChainArgs_Chain args)]
        /\ out_world o = w
    | None, Some _ =>
        calls_of o = [debug; chainManager_Lookup (AliasChainArgs_Chain args);
                      chainManager_Alias chainID (AliasChainArgs_Alias args)]
        /\ out_world o = set_chains (fst aliased) w
    | None, None =>
        calls_of o = [debug; chainManager_Lookup (AliasChainArgs_Chain args);
                      chainManager_Alias chainID (AliasChainArgs_Alias args);
                      httpServer_AddAliasesWithReadLock endpoint [route]]
        /\ out_world o = set_server (fst routed) (set_chains (fst aliased) w)
    end.
Proof.
  intros service w args reply. cbn.
  destruct (Manager_Lookup impl (chains w) (AliasChainArgs_Chain args)) as [chainID [e1 |]];
    cbn; [split; reflexivity |].
  destruct (Manager_Alias impl (chains w) chainID (AliasChainArgs_Alias args)) as [m [e2 |]];
    cbn; [split; reflexivity |].
  destruct (Server_AddAliasesWithReadLock impl (server w) _ _) as [s e3]; cbn.
  split; reflexivity.
Qed.

(** C1, as amended.  AliasChain makes its two registrations one after
    the other and undoes nothing: it returns no error only when the
    lookup and both registrations returned none; when the lookup fails
    the world is untouched; when the registration with the chain manager
    fails the API server is not called; and when the registration with
    the API server fails its error is returned while the chain manager
    keeps what the registration of the alias made of it. *)
Theorem AliasChain_sequential_no_rollback :
  forall (service : Admin') (w : World') (args : AliasChainArgs) (reply : AliasChainReply),
    let o := exec impl (AliasChain ID_String service args) reply service w in
    AliasChain_result ID_String impl w args (out_err o) (out_world o).
Proof.
  intros service w args reply. cbn.
  destruct (Manager_Lookup impl (chains w) (AliasChainArgs_Chain args))
    as [chainID [e1 |]] eqn:Hlookup; cbn.
  { eapply AliasChain_unresolved; eassumption. }
  destruct (Manager_Alias impl (chains w) chainID (AliasChainArgs_Alias args))
    as [m [e2 |]] eqn:Halias; cbn.
  { eapply AliasChain_chain_alias_failed; eassumption. }
  destruct (Server_AddAliasesWithReadLock impl (server w)
              ("bc/" +:+ ID_String chainID) ["bc/" +:+ AliasChainArgs_Alias args])
    as [s [e3 |]] eqn:Hroute; cbn.
  - eapply AliasChain_route_alias_failed; eassumption.
  - eapply AliasChain_both_registered; eassumption.
Qed.

(** C8.  StartCPUProfiler, StopCPUProfiler, MemoryProfile, LockProfile
    and Alias have set Success to true by the time they call the
    collaborator, and the reply holds Success = true whatever the
    collaborator returns, an error included.  AliasChain, once the lookup
    and the registration with the chain manager have succeeded, has set
    Success to true by the time it calls the API server, so the reply
    holds Success = true next to the error of that last call. *)
Theorem Success_set_before_collaborator_call :
  forall (service : Admin') (w : World'),
    (forall (args : StartCPUProfilerArgs) (reply : StartCPUProfilerReply),
       let o := exec impl (StartCPUProfiler service args) reply service w in
       out_reply o = {| StartCPUProfilerReply_Success := true |}
       /\ calls_with StartCPUProfilerReply_Success o =
          [(log_Debug "Admin: StartCPUProfiler called with %s"
              [StartCPUProfilerArgs_Filename args], StartCPUProfilerReply_Success reply);
           (performance_StartCPUProfiler (StartCPUProfilerArgs_Filename args), true)])
    /\ (forall (reply : StopCPUProfilerReply),
       let o := exec impl (StopCPUProfiler service) reply service w in
       out_reply o = {| StopCPUProfilerReply_Success := true |}
       /\ calls_with StopCPUProfilerReply_Success o =
          [(log_Debug "Admin: StopCPUProfiler called" [], StopCPUProfilerReply_Success reply);
           (performance_StopCPUProfiler, true)])
    /\ (forall (args : MemoryProfileArgs) (reply : MemoryProfileReply),
       let o := exec impl (MemoryProfile service args) reply service w in
       out_reply o = {| MemoryProfileReply_Success := true |}
       /\ calls_with MemoryProfileReply_Success o =
          [(log_Debug "Admin: MemoryProfile called with %s"
              [MemoryProfileArgs_Filename args], MemoryProfileReply_Success reply);
           (performance_MemoryProfile (MemoryProfileArgs_Filename args), true)])
    /\ (forall (args : LockProfileArgs) (reply : LockProfileReply),
       let o := exec impl (LockProfile service args) reply service w in
       out_reply o = {| LockProfileReply_Success := true |}
       /\ calls_with LockProfileReply_Success o =
          [(log_Debug "Admin: LockProfile called with %s"
              [LockProfileArgs_Filename args], LockProfileReply_Success reply);
           (performance_LockProfile (LockProfileArgs_Filename args), true)])
    /\ (forall (args : AliasArgs) (reply : AliasReply),
       let o := exec impl (Alias service args) reply service w in
       out_reply o = {| AliasReply_Success := true |}
       /\ calls_with AliasReply_Success o =
          [(log_Debug "Admin: Alias called with URL: %s, Alias: %s"
              [AliasArgs_Endpoint args; AliasArgs_Alias args], AliasReply_Success reply);
           (httpServer_AddAliasesWithReadLock (AliasArgs_Endpoint args) [AliasArgs_Alias args],
            true)])
    /\ (forall (args : AliasChainArgs) (reply : AliasChainReply) (chainID : ID) (m : Manager),
       let o := exec impl (AliasChain ID_String service args) reply service w in
       let endpoint := "bc/" +:+ ID_String chainID in
       let route := "bc/" +:+ AliasChainArgs_Alias args in
       Manager_Lookup impl (chains w) (AliasChainArgs_Chain args) = (chainID, None) ->
       Manager_Alias impl (chains w) chainID (AliasChainArgs_Alias args) = (m, None) ->
       out_reply o = {| AliasChainReply_Success := true |}
       /\ out_err o = snd (Server_AddAliasesWithReadLock impl (server w) endpoint [route])
       /\ calls_with AliasChainReply_Success o =
          [(log_Debug "Admin: AliasChain called with Chain: %s, Alias: %s"
              [AliasChainArgs_Chain args; AliasChainArgs_Alias args],
            AliasChainReply_Success reply);
           (chainManager_Lookup (AliasChainArgs_Chain args), AliasChainReply_Success reply);
           (chainManager_Alias chainID (AliasChainArgs_Alias args),
            AliasChainReply_Success reply);
           (httpServer_AddAliasesWithReadLock endpoint [route], true)]).
Proof.
  intros service w. repeat apply conj.
  - intros args reply. cbn.
    destruct (Performance_StartCPUProfiler impl _ _ _) as [[p rt] err]. split; reflexivity.
  - intros reply. cbn.
    destruct (Performance_StopCPUProfiler impl _ _) as [[p rt] err]. split; reflexivity.
  - intros args reply. cbn.
    destruct (Performance_MemoryProfile impl _ _ _) as [[p rt] err]. split; reflexivity.
  - intros args reply. cbn.
    destruct (Performance_LockProfile impl _ _ _) as [[p rt] err]. split; reflexivity.
  - intros args reply. cbn.
    destruct (Server_AddAliasesWithReadLock impl _ _ _) as [s err]. split; reflexivity.
  - intros args reply chainID m o endpoint route Hlookup Halias.
    subst o endpoint route. cbn. rewrite Hlookup. cbn. rewrite Halias. cbn.
    destruct (Server_AddAliasesWithReadLock impl _ _ _) as [s err].
    repeat split; reflexivity.
Qed.

(** After any run of requests on the service that NewService made,
    every field of the struct but [performance] holds the value it was
    constructed with; and a request other than the four profiling ones
    leaves the whole struct, [performance] included, as it was. *)
Lemma Admin_wiring_fixed_by_any_run :
  forall (reqs : list Request) (w : World')
         (v : Version) (n : ShortID) (net : Z) (l c p h : Addr),
    let service := NewService Performance_zero v n net l c p h in
    let service' := snd (fst (serve_all' reqs service w)) in
    (version service' = v /\ nodeID service' = n /\ networkID service' = net
     /\ log service' = l /\ networking service' = p
     /\ chainManager service' = c /\ httpServer service' = h)
    /\ (forall (req : Request) (s : Admin') (w0 : World'),
          if profiling_request req then True
          else resp_service (serve' req s w0) = s).
Proof.
  intros reqs w v n net l c p h service service'. split.
  - exact (serve_all_same_wiring reqs service w).
  - intros req s w0. destruct req; cbn [profiling_request]; try exact I;
      run_handler; congruence.
Qed.
End Properties.

(** * Properties on the collaborators of the specification *)

Section Model.

Context {Version ShortID : Type}.
Variable Version_String : Version -> string.
Variable genesis_NetworkName : Z -> string.
Variable ShortID_zero : ShortID.

Local Abbreviation AdminM := (@Admin Version ShortID ProfilerState).
Local Abbreviation WorldM :=
  (@World (gmap string string) (gmap string string) (list (@PeerID ShortID)) Backend).
Local Abbreviation serveM :=
  (serve Version_String chainID_String genesis_NetworkName ShortID_zero spec_collaborators).
Local Abbreviation serve_allM :=
  (serve_all Version_String chainID_String genesis_NetworkName ShortID_zero spec_collaborators).

Lemma set_performance_same (s : AdminM) : set_performance (performance s) s = s.
Proof. destruct s; reflexivity. Qed.

Lemma set_runtime_same (w : WorldM) : set_runtime (runtime w) w = w.
Proof. destruct w; reflexivity. Qed.

(** One request and the profiler state, case by case. *)
Lemma serve_Start_while_profiling (args : StartCPUProfilerArgs) (s : AdminM) (w : WorldM)
    (path : string) :
  performance s = CPUProfiling path ->
  resp_err (serveM (ReqStartCPUProfiler args) s w) = Some AlreadyInProgress
  /\ resp_service (serveM (ReqStartCPUProfiler args) s w) = s
  /\ resp_world (serveM (ReqStartCPUProfiler args) s w) = w.
Proof.
  intros Hst. cbn. rewrite Hst. cbn. rewrite <- Hst.
  rewrite set_performance_same, set_runtime_same. repeat split.
Qed.

Lemma serve_Start_while_idle (args : StartCPUProfilerArgs) (s : AdminM) (w : WorldM) :
  performance s = Idle ->
  let r := serveM (ReqStartCPUProfiler args) s w in
  (resp_err r = None
   /\ performance (resp_service r) = CPUProfiling (StartCPUProfilerArgs_Filename args))
  \/ (resp_err r = Some IOError /\ resp_service r = s /\ resp_world r = w).
Proof.
  intros Hst. cbn. rewrite Hst. cbn.
  destruct (bool_decide (StartCPUProfilerArgs_Filename args ∈ unwritable (runtime w))); cbn.
  - right. rewrite <- Hst, set_performance_same, set_runtime_same. repeat split.
  - left. split; reflexivity.
Qed.

Lemma serve_Stop_while_idle (s : AdminM) (w : WorldM) :
  performance s = Idle ->
  resp_err (serveM ReqStopCPUProfiler s w) = Some NotInProgress
  /\ resp_service (serveM ReqStopCPUProfiler s w) = s
  /\ resp_world (serveM ReqStopCPUProfiler s w) = w.
Proof.
  intros Hst. cbn. rewrite Hst. cbn. rewrite <- Hst.
  rewrite set_performance_same, set_runtime_same. repeat split.
Qed.

Lemma serve_Stop_while_profiling (s : AdminM) (w : WorldM) (path : string) :
  performance s = CPUProfiling path ->
  resp_err (serveM ReqStopCPUProfiler s w) = None
  /\ performance (resp_service (serveM ReqStopCPUProfiler s w)) = Idle.
Proof. intros Hst. cbn. rewrite Hst. cbn. split; reflexivity. Qed.

Lemma serve_Stop_leaves_idle (s : AdminM) (w : WorldM) :
  performance (resp_service (serveM ReqStopCPUProfiler s w)) = Idle.
Proof.
  destruct (performance s) as [| path] eqn:Hst.
  - destruct (serve_Stop_while_idle s w Hst) as (_ & -> & _). exact Hst.
  - apply (serve_Stop_while_profiling s w path Hst).
Qed.

Lemma serve_other_keeps_profiler (req : Request) (s : AdminM) (w : WorldM) :
  is_start req = false -> is_stop req = false ->
  performance (resp_service (serveM req s w)) = performance s.
Proof.
  intros Hstart Hstop. destruct req; try discriminate; cbn.
  all: try reflexivity.
  - destruct (ChainResolver_Lookup _ _); reflexivity.
  - unfold ProfilerController_MemoryProfile, ProfilerController_snapshot.
    destruct (bool_decide _); reflexivity.
  - unfold ProfilerController_LockProfile, ProfilerController_snapshot.
    destruct (bool_decide _); reflexivity.
  - destruct (RoutingTable_RegisterAlias _ _ _); reflexivity.
  - destruct (ChainResolver_Lookup _ _) as [chainID [e |]]; cbn; [reflexivity |].
    destruct (RoutingTable_RegisterAlias _ _ _); reflexivity.
Qed.

(** One request that is no successful Stop keeps a CPU profile running,
    and one that is no successful Start keeps an idle profiler idle. *)
Lemma serve_keeps_profiling (req : Request) (s : AdminM) (w : WorldM) (path : string) :
  performance s = CPUProfiling path ->
  successful_stop (req, serveM req s w) = false ->
  performance (resp_service (serveM req s w)) = CPUProfiling path.
Proof.
  intros Hst Hno.
  destruct (is_start req) eqn:Hstart; [| destruct (is_stop req) eqn:Hstop].
  - destruct req; try discriminate.
    destruct (serve_Start_while_profiling args s w path Hst) as (_ & -> & _). exact Hst.
  - destruct req; try discriminate.
    destruct (serve_Stop_while_profiling s w path Hst) as [Herr _].
    unfold successful_stop, succeeded in Hno. cbn [fst snd is_stop andb] in Hno.
    rewrite Herr in Hno. discriminate.
  - rewrite serve_other_keeps_profiler by assumption. exact Hst.
Qed.

Lemma serve_keeps_idle (req : Request) (s : AdminM) (w : WorldM) :
  performance s = Idle ->
  successful_start (req, serveM req s w) = false ->
  performance (resp_service (serveM req s w)) = Idle.
Proof.
  intros Hst Hno.
  destruct (is_start req) eqn:Hstart; [| destruct (is_stop req) eqn:Hstop].
  - destruct req; try discriminate.
    destruct (serve_Start_while_idle args s w Hst) as [[Herr _] | (_ & -> & _)].
    + unfold successful_start, succeeded in Hno. cbn [fst snd is_start andb] in Hno.
      rewrite Herr in Hno. discriminate.
    + exact Hst.
  - destruct req; try discriminate. apply serve_Stop_leaves_idle.
  - rewrite serve_other_keeps_profiler by assumption. exact Hst.
Qed.

Lemma run_keeps_profiling (l : list (Request * Response)) :
  forall (s s' : AdminM) (w w' : WorldM) (path : string),
    serve_allM (map fst l) s w = (l, s', w') ->
    performance s = CPUProfiling path ->
    existsb successful_stop l = false ->
    performance s' = CPUProfiling path.
Proof.
  induction l as [| x l IH]; intros s s' w w' path Hrun Hst Hno.
  - cbn in Hrun. injection Hrun as <- <-. exact Hst.
  - apply serve_all_head in Hrun as [Hx Htail].
    cbn [existsb] in Hno. apply orb_false_iff in Hno as [Hno1 Hno2].
    eapply IH; [exact Htail | | exact Hno2].
    rewrite Hx. apply serve_keeps_profiling; [exact Hst |].
    rewrite <- Hx. destruct x; exact Hno1.
Qed.

Lemma run_keeps_idle (l : list (Request * Response)) :
  forall (s s' : AdminM) (w w' : WorldM),
    serve_allM (map fst l) s w = (l, s', w') ->
    performance s = Idle ->
    existsb successful_start l = false ->
    performance s' = Idle.
Proof.
  induction l as [| x l IH]; intros s s' w w' Hrun Hst Hno.
  - cbn in Hrun. injection Hrun as <- <-. exact Hst.
  - apply serve_all_head in Hrun as [Hx Htail].
    cbn [existsb] in Hno. apply orb_false_iff in Hno as [Hno1 Hno2].
    eapply IH; [exact Htail | | exact Hno2].
    rewrite Hx. apply serve_keeps_idle; [exact Hst |].
    rewrite <- Hx. destruct x; exact Hno1.
Qed.

(** C2.  In the log of any run of requests on a service whose profiler is
    Idle: between two Starts that succeeded there is a Stop that
    succeeded; a Start that follows a successful Start with no successful
    Stop in between fails with AlreadyInProgress; a Stop that comes right
    after a Stop fails with NotInProgress, and so does a Stop before any
    successful Start; and a Start or Stop that fails leaves the service,
    its profiler state included, and the world as they were. *)
Theorem CPU_profiler_start_stop_discipline :
  forall (reqs : list Request) (service : AdminM) (w : WorldM),
    performance service = Idle ->
    let log := fst (fst (serve_allM reqs service w)) in
    (forall l1 a l2 b l3,
        log = l1 ++ a :: l2 ++ b :: l3 ->
        successful_start a = true -> successful_start b = true ->
        existsb successful_stop l2 = true)
    /\ (forall l1 a l2 b l3,
        log = l1 ++ a :: l2 ++ b :: l3 ->
        successful_start a = true -> existsb successful_stop l2 = false ->
        is_start (fst b) = true ->
        resp_err (snd b) = Some AlreadyInProgress)
    /\ (forall l1 a b l3,
        log = l1 ++ a :: b :: l3 ->
        is_stop (fst a) = true -> is_stop (fst b) = true ->
        resp_err (snd b) = Some NotInProgress)
    /\ (forall l1 b l3,
        log = l1 ++ b :: l3 ->
        existsb successful_start l1 = false -> is_stop (fst b) = true ->
        resp_err (snd b) = Some NotInProgress)
    /\ (forall (req : Request) (s0 : AdminM) (w0 : WorldM),
        is_start req || is_stop req = true ->
        resp_err (serveM req s0 w0) <> None ->
        resp_service (serveM req s0 w0) = s0 /\ resp_world (serveM req s0 w0) = w0).
Proof.
  intros reqs service w Hidle log. subst log.
  destruct (serve_allM reqs service w) as [[log service'] w'] eqn:Hrun. cbn [fst].
  assert (Hblocked : forall l1 a l2 b l3,
             log = l1 ++ a :: l2 ++ b :: l3 ->
             successful_start a = true -> existsb successful_stop l2 = false ->
             is_start (fst b) = true ->
             resp_err (snd b) = Some AlreadyInProgress).
  { intros l1 a l2 b l3 -> Ha Hl2 Hb.
    pose proof Hrun as Hcut_l1; apply serve_all_split in Hcut_l1 as (s1 & w1 & _ & Hrest).
    apply serve_all_head in Hrest as [Hxa Htail].
    pose proof Htail as Hcut_l2; apply serve_all_split in Hcut_l2 as (s2 & w2 & Hmid & Hlast).
    apply serve_all_head in Hlast as [Hxb _].
    destruct a as [reqa ra], b as [reqb rb]. cbn [fst snd] in *.
    unfold successful_start, succeeded in Ha. cbn [fst snd] in Ha.
    apply andb_true_iff in Ha as [Hisa Hoka].
    destruct reqa as [| | | | | | argsa | | | | | |]; try discriminate.
    destruct reqb as [| | | | | | argsb | | | | | |]; try discriminate.
    assert (Hprof : performance (resp_service ra) =
                    CPUProfiling (StartCPUProfilerArgs_Filename argsa)).
    { destruct (performance s1) as [| path] eqn:Hs1.
      - destruct (serve_Start_while_idle argsa s1 w1 Hs1) as [[_ Hp] | [He _]].
        + rewrite Hxa. exact Hp.
        + rewrite <- Hxa in He. rewrite He in Hoka. discriminate.
      - destruct (serve_Start_while_profiling argsa s1 w1 path Hs1) as [He _].
        rewrite <- Hxa in He. rewrite He in Hoka. discriminate. }
    pose proof (run_keeps_profiling l2 _ _ _ _ _ Hmid Hprof Hl2) as Hs2.
    rewrite Hxb. apply (serve_Start_while_profiling argsb s2 w2 _ Hs2). }
  repeat apply conj.
  - intros l1 a l2 b l3 Hlog Ha Hb.
    destruct (existsb successful_stop l2) eqn:Hl2; [reflexivity | exfalso].
    unfold successful_start in Hb. apply andb_true_iff in Hb as [Hisb Hokb].
    pose proof (Hblocked l1 a l2 b l3 Hlog Ha Hl2 Hisb) as He.
    unfold succeeded in Hokb. rewrite He in Hokb. discriminate.
  - exact Hblocked.
  - intros l1 a b l3 -> Ha Hb.
    pose proof Hrun as Hcut_l1; apply serve_all_split in Hcut_l1 as (s1 & w1 & _ & Hrest).
    apply serve_all_head in Hrest as [Hxa Htail].
    apply serve_all_head in Htail as [Hxb _].
    destruct a as [reqa ra], b as [reqb rb]. cbn [fst snd] in *.
    destruct reqa; try discriminate. destruct reqb; try discriminate.
    rewrite Hxb. apply serve_Stop_while_idle.
    rewrite Hxa. apply serve_Stop_leaves_idle.
  - intros l1 b l3 -> Hl1 Hb.
    pose proof Hrun as Hcut_l1; apply serve_all_split in Hcut_l1 as (s1 & w1 & Hfirst & Hrest).
    apply serve_all_head in Hrest as [Hxb _].
    destruct b as [reqb rb]. cbn [fst snd] in *.
    destruct reqb; try discriminate.
    rewrite Hxb. apply serve_Stop_while_idle.
    exact (run_keeps_idle l1 _ _ _ _ Hfirst Hidle Hl1).
  - intros req s0 w0 Hreq Hfail.
    destruct req as [| | | | | | args | | | | | |]; try discriminate.
    + destruct (performance s0) as [| path] eqn:Hs0.
      * destruct (serve_Start_while_idle args s0 w0 Hs0) as [[He _] | (_ & Hs & Hw)].
        -- contradiction.
        -- split; assumption.
      * destruct (serve_Start_while_profiling args s0 w0 path Hs0) as (_ & Hs & Hw).
        split; assumption.
    + destruct (performance s0) as [| path] eqn:Hs0.
      * destruct (serve_Stop_while_idle s0 w0 Hs0) as (_ & Hs & Hw). split; assumption.
      * destruct (serve_Stop_while_profiling s0 w0 path Hs0) as [He _]. contradiction.
Qed.

(** C5.  GetBlockchainID of an alias the chain manager has no entry for
    returns NotFound, which is the error of the lookup itself, and
    changes nothing: the service struct and the world are as before, and
    the only calls made are the debug line and the lookup. *)
Theorem GetBlockchainID_unregistered_alias :
  forall (service : AdminM) (w : WorldM) (args : GetBlockchainIDArgs)
         (reply : GetBlockchainIDReply),
    chains w !! GetBlockchainIDArgs_Alias args = None ->
    let o := exec spec_collaborators (GetBlockchainID chainID_String service args)
                  reply service w in
    out_err o = Some NotFound
    /\ out_err o = snd (ChainResolver_Lookup (chains w) (GetBlockchainIDArgs_Alias args))
    /\ out_service o = service
    /\ out_world o = w
    /\ calls_of o = [log_Debug "Admin: GetBlockchainID called" [];
                     chainManager_Lookup (GetBlockchainIDArgs_Alias args)].
Proof.
  intros service w args reply Hmiss. cbn.
  unfold ChainResolver_Lookup. rewrite Hmiss. cbn. repeat split.
Qed.

(** C7.  MemoryProfile and LockProfile do not look at the profiler state
    and do not change it: in either state, Idle or CPUProfiling, the call
    fails with IOError exactly when no file can be created at the given
    path and succeeds otherwise, and the service struct, with its
    profiler state, is afterwards what it was. *)
Theorem snapshot_profiles_ignore_profiler_state :
  forall (st : ProfilerState) (service : AdminM) (w : WorldM) (filename : string),
    let s := set_performance st service in
    let failure :=
      if bool_decide (filename ∈ unwritable (runtime w)) then Some IOError else None in
    (forall (reply : MemoryProfileReply),
        let o := exec spec_collaborators
                      (MemoryProfile s {| MemoryProfileArgs_Filename := filename |})
                      reply s w in
        out_err o = failure /\ performance (out_service o) = st /\ out_service o = s)
    /\ (forall (reply : LockProfileReply),
        let o := exec spec_collaborators
                      (LockProfile s {| LockProfileArgs_Filename := filename |})
                      reply s w in
        out_err o = failure /\ performance (out_service o) = st /\ out_service o = s).
Proof.
  intros st service w filename. cbn.
  unfold ProfilerController_MemoryProfile, ProfilerController_LockProfile,
    ProfilerController_snapshot.
  destruct (bool_decide (filename ∈ unwritable (runtime w))); cbn;
    split; intros _; repeat split.
Qed.

End Model.

(** * The example node *)

(** The run of two Starts and two Stops: the first Start and the first
    Stop succeed, the second of each is refused. *)
Example example_log_errors :
  map (fun x => resp_err (snd x)) example_log =
  [None; Some AlreadyInProgress; None; Some NotInProgress].
Proof. vm_compute. reflexivity. Qed.

(** Section 8 of the specification: with the chain [C] known as [abc123],
    AliasChain(C, myalias) makes [bc/abc123] and [bc/myalias] resolve
    alike, and a later Alias(bc/abc123, second) adds a third name. *)
Example example_routes_resolve_alike :
  let after_chain :=
    example_serve (ReqAliasChain {| AliasChainArgs_Chain := "C";
                                    AliasChainArgs_Alias := "myalias" |})
                  example_service example_world in
  let after_alias :=
    example_serve (ReqAlias {| AliasArgs_Endpoint := "bc/abc123";
                               AliasArgs_Alias := "second" |})
                  (resp_service after_chain) (resp_world after_chain) in
  let table := server (resp_world after_alias) in
  resp_err after_chain = None /\ resp_err after_alias = None
  /\ RoutingTable_resolve table "bc/myalias" = RoutingTable_resolve table "bc/abc123"
  /\ RoutingTable_resolve table "second" = RoutingTable_resolve table "bc/abc123".
Proof. vm_compute. repeat split. Qed.

(** The lookup of an unknown name on the example node: NotFound comes
    back from the chain manager and is what GetBlockchainID returns. *)
Lemma collaborator_error_passed_through_witness :
  In example_miss
     (resp_events
        (example_serve (ReqGetBlockchainID {| GetBlockchainIDArgs_Alias := "nope" |})
                       example_service example_world))
  /\ call_error (ev_call example_miss) (ev_resp example_miss) = Some NotFound
  /\ resp_err
       (example_serve (ReqGetBlockchainID {| GetBlockchainIDArgs_Alias := "nope" |})
                      example_service example_world) = Some NotFound.
Proof.
  assert (Hin : In example_miss
                   (resp_events
                      (example_serve
                         (ReqGetBlockchainID {| GetBlockchainIDArgs_Alias := "nope" |})
                         example_service example_world))).
  { right. left. reflexivity. }
  split; [exact Hin |]. split; [reflexivity |].
  exact (collaborator_error_passed_through
           (fun v : string => v) chainID_String example_NetworkName "" spec_collaborators
           (ReqGetBlockchainID {| GetBlockchainIDArgs_Alias := "nope" |})
           example_service example_world example_miss NotFound Hin eq_refl).
Defined.

(** On the example node, idle at first, the Start that follows the first
    Start is refused. *)
Lemma CPU_profiler_start_stop_discipline_witness :
  performance example_service = Idle
  /\ resp_err (snd example_second_start) = Some AlreadyInProgress.
Proof.
  split; [reflexivity |].
  refine (proj1 (proj2 (CPU_profiler_start_stop_discipline
                          (fun v : string => v) example_NetworkName ""
                          example_run example_service example_world eq_refl))
                [] example_first_start [] example_second_start (skipn 2 example_log)
                _ _ _ _).
  - vm_compute. reflexivity.
  - reflexivity.
  - reflexivity.
  - reflexivity.
Defined.

(** The example chain manager has no entry for [nope]. *)
Lemma GetBlockchainID_unregistered_alias_witness :
  chains example_world !! "nope" = None
  /\ out_err (exec spec_collaborators
                (GetBlockchainID chainID_String example_service
                   {| GetBlockchainIDArgs_Alias := "nope" |})
                {| GetBlockchainIDReply_BlockchainID := "" |}
                example_service example_world) = Some NotFound.
Proof.
  split; [reflexivity |].
  exact (proj1 (GetBlockchainID_unregistered_alias example_service example_world
                  {| GetBlockchainIDArgs_Alias := "nope" |}
                  {| GetBlockchainIDReply_BlockchainID := "" |} eq_refl)).
Defined.

(** AliasChain(C, myalias) on the node where [bc/myalias] is taken: the
    lookup and the chain manager succeed, the routing table refuses, and
    the reply says Success next to the error. *)
Lemma Success_set_before_collaborator_call_witness :
  ChainResolver_Lookup (chains occupied_world) "C" = ("abc123", None)
  /\ ChainResolver_RegisterAlias (chains occupied_world) "abc123" "myalias"
     = (<["myalias" := "abc123"]> (chains occupied_world), None)
  /\ out_reply (exec spec_collaborators
                  (AliasChain chainID_String example_service
                     {| AliasChainArgs_Chain := "C"; AliasChainArgs_Alias := "myalias" |})
                  {| AliasChainReply_Success := false |}
                  example_service occupied_world)
     = {| AliasChainReply_Success := true |}
  /\ out_err (exec spec_collaborators
                (AliasChain chainID_String example_service
                   {| AliasChainArgs_Chain := "C"; AliasChainArgs_Alias := "myalias" |})
                {| AliasChainReply_Success := false |}
                example_service occupied_world)
     = Some (CollaboratorError "alias already exists").
Proof.
  split; [reflexivity |]. split; [reflexivity |].
  destruct (proj2 (proj2 (proj2 (proj2 (proj2
              (Success_set_before_collaborator_call chainID_String spec_collaborators
                 example_service occupied_world)))))
              {| AliasChainArgs_Chain := "C"; AliasChainArgs_Alias := "myalias" |}
              {| AliasChainReply_Success := false |}
              "abc123" (<["myalias" := "abc123"]> (chains occupied_world))
              eq_refl eq_refl) as (Hreply & Herr & _).
  split; [exact Hreply |]. rewrite Herr. reflexivity.
Defined.

(** What AliasChain(C, myalias) leaves behind on the node where
    [bc/myalias] is taken. *)
Example example_partial_registration :
  let o := exec spec_collaborators
             (AliasChain chainID_String example_service
                {| AliasChainArgs_Chain := "C"; AliasChainArgs_Alias := "myalias" |})
             {| AliasChainReply_Success := false |} example_service occupied_world in
  out_err o = Some (CollaboratorError "alias already exists")
  /\ chains occupied_world !! "myalias" = None
  /\ chains (out_world o) !! "myalias" = Some "abc123"
  /\ server (out_world o) = server occupied_world.
Proof. vm_compute. repeat split. Qed.

(** C1 as stated does not hold.  On a node where the name [bc/myalias]
    is already taken in the routing table, AliasChain(C, myalias)
    registers [myalias] with the chain manager, is refused by the routing
    table, and returns that error with the chain manager changed and the
    routing table unchanged. *)
Lemma AliasChain_not_all_or_nothing :
  ~ AliasChain_all_or_nothing example_service occupied_world
      {| AliasChainArgs_Chain := "C"; AliasChainArgs_Alias := "myalias" |}.
Proof.
  unfold AliasChain_all_or_nothing. cbn. intros [_ Hback].
  specialize (Hback eq_refl).
  apply (f_equal (fun m : gmap string string => m !! "myalias")) in Hback.
  vm_compute in Hback. discriminate.
Qed.

(** C10 as stated does not hold.  A StartCPUProfiler that succeeds on
    the service NewService made leaves the field [performance] at
    CPUProfiling, not at the value it was constructed with. *)
Lemma StartCPUProfiler_changes_performance_field :
  performance
    (resp_service
       (example_serve (ReqStartCPUProfiler {| StartCPUProfilerArgs_Filename := "cpu.prof" |})
                      (NewService Idle "gecko/0.5.0" "NodeID-1" 3%Z 1%N 2%N 3%N 4%N)
                      example_world))
  <> performance (NewService Idle "gecko/0.5.0" "NodeID-1" 3%Z 1%N 2%N 3%N 4%N).
Proof. vm_compute. discriminate. Qed.

(** * Further properties of the handlers *)

Ltac run_through := repeat (cbn in *; unfold on_performance in *; try break_match).

Section Frames.

Context {Version ShortID ID Err Performance Manager Server Network Runtime : Type}.
Variable Version_String : Version -> string.
Variable ID_String : ID -> string.
Variable genesis_NetworkName : Z -> string.
Variable ShortID_zero : ShortID.
Variable Performance_zero : Performance.
Variable impl : @Collaborators ShortID ID Err Performance Manager Server Network Runtime.

Local Abbreviation Admin' := (@Admin Version ShortID Performance).
Local Abbreviation World' := (@World Manager Server Network Runtime).
Local Abbreviation serve' :=
  (serve Version_String ID_String genesis_NetworkName ShortID_zero impl).
Local Abbreviation serve_all' :=
  (serve_all Version_String ID_String genesis_NetworkName ShortID_zero impl).
Local Abbreviation service_after' :=
  (service_after Version_String ID_String genesis_NetworkName ShortID_zero impl).
Local Abbreviation world_after' :=
  (world_after Version_String ID_String genesis_NetworkName ShortID_zero impl).
Local Abbreviation log_of' :=
  (log_of Version_String ID_String genesis_NetworkName ShortID_zero impl).

(** What holds of service and world before a run and is kept by every
    admissible request holds after the run. *)
Lemma serve_all_preserves (P : Admin' -> World' -> Prop) (ok : Request -> bool) :
  (forall req s w, ok req = true -> P s w ->
                   P (resp_service (serve' req s w)) (resp_world (serve' req s w))) ->
  forall (reqs : list Request) (service : Admin') (w : World'),
    forallb ok reqs = true -> P service w ->
    P (service_after' reqs service w) (world_after' reqs service w).
Proof.
  intros Hstep. unfold service_after, world_after.
  induction reqs as [| req rest IH]; intros service w Hok HP; cbn [serve_all].
  - exact HP.
  - cbn [forallb] in Hok. apply andb_true_iff in Hok as [Hreq Hrest].
    specialize (IH _ _ Hrest (Hstep req service w Hreq HP)).
    destruct (serve_all' rest _ _) as [[rs s'] w']. exact IH.
Qed.

Lemma set_performance_id (s : Admin') : set_performance (performance s) s = s.
Proof. destruct s; reflexivity. Qed.

Lemma same_wiring_eq (s s' : Admin') :
  same_wiring s s' -> performance s' = performance s -> s' = s.
Proof.
  intros (Hv & Hn & Hnet & Hl & Hp & Hc & Hh) Hperf.
  destruct s, s'; cbn in *; congruence.
Qed.

(** One request and the parts of the world its handler has no call for. *)
Lemma serve_keeps_chains (req : Request) (s : Admin') (w : World') :
  is_alias_chain req = false -> chains (resp_world (serve' req s w)) = chains w.
Proof.
  intros Hreq. destruct req; try discriminate; run_through; simplify_eq; reflexivity.
Qed.

Lemma serve_keeps_server (req : Request) (s : Admin') (w : World') :
  aliasing_request req = false -> server (resp_world (serve' req s w)) = server w.
Proof.
  intros Hreq. destruct req; try discriminate; run_through; simplify_eq; reflexivity.
Qed.

Lemma serve_keeps_profiler (req : Request) (s : Admin') (w : World') :
  profiling_request req = false ->
  resp_service (serve' req s w) = s /\ runtime (resp_world (serve' req s w)) = runtime w.
Proof.
  intros Hreq. destruct req; try discriminate; run_through; simplify_eq;
    split; reflexivity.
Qed.

Lemma serve_read_only (req : Request) (s : Admin') (w : World') :
  read_only_request req = true ->
  resp_service (serve' req s w) = s /\ resp_world (serve' req s w) = w.
Proof.
  intros Hreq. destruct req; try discriminate; run_through; simplify_eq;
    split; reflexivity.
Qed.

Lemma serve_returns_nil (req : Request) (s : Admin') (w : World') :
  returns_nil req = true -> resp_err (serve' req s w) = None.
Proof. intros Hreq. destruct req; try discriminate; reflexivity. Qed.

(** X1.  A run made only of GetNodeVersion, GetNodeID, GetNetworkID,
    GetNetworkName, GetBlockchainID, Peers and Stacktrace requests ends
    with the service struct and the whole world as they were at its
    start; and in it every request other than GetBlockchainID was
    answered without an error. *)
Theorem read_only_run_changes_nothing :
  forall (reqs : list Request) (service : Admin') (w : World'),
    forallb read_only_request reqs = true ->
    service_after' reqs service w = service
    /\ world_after' reqs service w = w
    /\ Forall (fun x => returns_nil (fst x) = true -> resp_err (snd x) = None)
              (log_of' reqs service w).
Proof.
  intros reqs service w Hro.
  pose proof (serve_all_preserves (fun s' w' => s' = service /\ w' = w) read_only_request)
    as Hinv.
  cbn beta in Hinv.
  assert (Hstep : forall req s0 w0, read_only_request req = true ->
                    s0 = service /\ w0 = w ->
                    resp_service (serve' req s0 w0) = service
                    /\ resp_world (serve' req s0 w0) = w).
  { intros req s0 w0 Hreq [-> ->]. apply serve_read_only, Hreq. }
  destruct (Hinv Hstep reqs service w Hro (conj eq_refl eq_refl)) as [Hs Hw].
  split; [exact Hs |]. split; [exact Hw |].
  clear. unfold log_of. revert service w.
  induction reqs as [| req rest IH]; intros service w; cbn [serve_all].
  - constructor.
  - specialize (IH (resp_service (serve' req service w)) (resp_world (serve' req service w))).
    destruct (serve_all' rest _ _) as [[rs s'] w']. cbn [fst] in *.
    constructor; [| exact IH]. cbn [fst snd]. apply serve_returns_nil.
Qed.

(** X2.  The chain manager is changed by AliasChain alone, and the API
    server by Alias and AliasChain alone: a run without AliasChain leaves
    the chain manager as it was, and a run with neither leaves the API
    server as it was. *)
Theorem alias_registrations_only_by_alias_requests :
  forall (reqs : list Request) (service : Admin') (w : World'),
    (forallb (fun req => negb (is_alias_chain req)) reqs = true ->
     chains (world_after' reqs service w) = chains w)
    /\ (forallb (fun req => negb (aliasing_request req)) reqs = true ->
        server (world_after' reqs service w) = server w).
Proof.
  intros reqs service w. split; intros Hok.
  - apply (serve_all_preserves (fun _ w' => chains w' = chains w)
             (fun req => negb (is_alias_chain req))); [| exact Hok | reflexivity].
    intros req s0 w0 Hreq H0. rewrite serve_keeps_chains; [exact H0 |].
    apply negb_true_iff, Hreq.
  - apply (serve_all_preserves (fun _ w' => server w' = server w)
             (fun req => negb (aliasing_request req))); [| exact Hok | reflexivity].
    intros req s0 w0 Hreq H0. rewrite serve_keeps_server; [exact H0 |].
    apply negb_true_iff, Hreq.
Qed.

(** X3.  Only StartCPUProfiler, StopCPUProfiler, MemoryProfile and
    LockProfile reach the profiler: a run without them leaves the service
    struct, its [performance] field included, and the runtime with its
    file system exactly as they were. *)
Theorem profiler_reached_only_by_profiling_requests :
  forall (reqs : list Request) (service : Admin') (w : World'),
    forallb (fun req => negb (profiling_request req)) reqs = true ->
    service_after' reqs service w = service
    /\ runtime (world_after' reqs service w) = runtime w.
Proof.
  intros reqs service w Hok.
  apply (serve_all_preserves (fun s' w' => s' = service /\ runtime w' = runtime w)
           (fun req => negb (profiling_request req))); [| exact Hok | split; reflexivity].
  intros req s0 w0 Hreq [-> Hrt].
  destruct (serve_keeps_profiler req service w0) as [Hs Hr].
  { apply negb_true_iff, Hreq. }
  split; [exact Hs | congruence].
Qed.

(** X4.  What the identity reads answer is what NewService was given:
    after any run on the service NewService made, GetNodeVersion replies
    the String of that version, GetNodeID that node identifier,
    GetNetworkID that network identifier and GetNetworkName the name
    genesis.NetworkName gives to it, each without an error. *)
Theorem identity_reads_answer_construction_values :
  forall (reqs : list Request) (w : World')
         (v : Version) (n : ShortID) (net : Z) (l c p h : Addr),
    let service := NewService Performance_zero v n net l c p h in
    let s' := service_after' reqs service w in
    let w' := world_after' reqs service w in
    (resp_reply (serve' ReqGetNodeVersion s' w')
       = RepGetNodeVersion {| GetNodeVersionReply_Version := Version_String v |}
     /\ resp_err (serve' ReqGetNodeVersion s' w') = None)
    /\ (resp_reply (serve' ReqGetNodeID s' w')
          = RepGetNodeID {| GetNodeIDReply_NodeID := n |}
        /\ resp_err (serve' ReqGetNodeID s' w') = None)
    /\ (resp_reply (serve' ReqGetNetworkID s' w')
          = RepGetNetworkID {| GetNetworkIDReply_NetworkID := net |}
        /\ resp_err (serve' ReqGetNetworkID s' w') = None)
    /\ (resp_reply (serve' ReqGetNetworkName s' w')
          = RepGetNetworkName
              {| GetNetworkNameReply_NetworkName := genesis_NetworkName net |}
        /\ resp_err (serve' ReqGetNetworkName s' w') = None).
Proof.
  intros reqs w v n net l c p h service s' w'.
  destruct (serve_all_same_wiring Version_String ID_String genesis_NetworkName
              ShortID_zero impl reqs service w) as (Hv & Hn & Hnet & _).
  fold (service_after' reqs service w) in Hv, Hn, Hnet. fold s' in Hv, Hn, Hnet.
  cbn in Hv, Hn, Hnet. cbn. rewrite Hv, Hn, Hnet. repeat split.
Qed.

(** X5.  AliasChain writes Success only once the lookup and the
    registration with the chain manager have both returned nil: then the
    reply says Success, whatever the API server returns afterwards;
    otherwise the reply is left exactly as the handler was given it.  A
    call that returns no error has therefore always set Success. *)
Theorem AliasChain_Success_written_after_two_steps :
  forall (service : Admin') (w : World') (args : AliasChainArgs) (reply : AliasChainReply),
    let o := exec impl (AliasChain ID_String service args) reply service w in
    let looked := Manager_Lookup impl (chains w) (AliasChainArgs_Chain args) in
    let aliased :=
      Manager_Alias impl (chains w) (fst looked) (AliasChainArgs_Alias args) in
    match snd looked, snd aliased with
    | None, None => out_reply o = {| AliasChainReply_Success := true |}
    | _, _ => out_reply o = reply /\ out_err o <> None
    end.
Proof.
  intros service w args reply. cbn.
  destruct (Manager_Lookup impl (chains w) (AliasChainArgs_Chain args)) as [chainID [e1 |]];
    cbn; [split; [reflexivity | discriminate] |].
  destruct (Manager_Alias impl (chains w) chainID (AliasChainArgs_Alias args)) as [m [e2 |]];
    cbn; [split; [reflexivity | discriminate] |].
  destruct (Server_AddAliasesWithReadLock impl _ _ _) as [s e3]. reflexivity.
Qed.

(** X6.  Every handler but Stacktrace sends exactly one debug line to the
    logger, and sends it before anything else; Stacktrace sends none.
    Besides the debug line a handler makes at most one call, AliasChain
    at most three, and the four identity reads none at all. *)
Theorem handler_call_budget :
  forall (req : Request) (service : Admin') (w : World'),
    let r := serve' req service w in
    length (debug_lines r) = (if is_stacktrace req then 0 else 1)
    /\ (if is_stacktrace req then True
        else exists format args rest,
            map ev_call (resp_events r) = log_Debug format args :: rest)
    /\ length (collaborator_calls r)
       <= (if is_alias_chain req then 3 else 1)
    /\ (match req with
        | ReqGetNodeVersion | ReqGetNodeID | ReqGetNetworkID | ReqGetNetworkName =>
            collaborator_calls r = []
        | _ => True
        end).
Proof.
  intros req service w.
  destruct req; unfold debug_lines, collaborator_calls; run_through;
    simplify_eq; cbn; repeat split; eauto; lia.
Qed.

(** X7.  GetBlockchainID and AliasChain resolve a name with the same
    lookup: when GetBlockchainID of a name returns an error, AliasChain
    of that name as chain returns the same error, for any alias, leaves
    the reply as it was given and the world untouched. *)
Theorem AliasChain_fails_where_GetBlockchainID_fails :
  forall (service : Admin') (w : World') (chain alias : string)
         (reply1 : GetBlockchainIDReply) (reply2 : AliasChainReply) (e : Err),
    out_err (exec impl (GetBlockchainID ID_String service
                          {| GetBlockchainIDArgs_Alias := chain |}) reply1 service w)
      = Some e ->
    let o := exec impl (AliasChain ID_String service
                          {| AliasChainArgs_Chain := chain; AliasChainArgs_Alias := alias |})
                  reply2 service w in
    out_err o = Some e /\ out_reply o = reply2 /\ out_world o = w
    /\ out_service o = service.
Proof.
  intros service w chain alias reply1 reply2 e. cbn.
  destruct (Manager_Lookup impl (chains w) chain) as [chainID [e1 |]]; cbn.
  - intros [= ->]. repeat split.
  - discriminate.
Qed.

(** X8.  AliasChain is the registration with the chain manager followed
    by what Alias does for the endpoint [bc/<identifier>] and the alias
    [bc/<alias>]: once the lookup and the chain manager have succeeded,
    the error AliasChain returns, the API server it leaves, and the
    Success it replies are those of the Alias handler run on the world
    the chain manager's registration left. *)
Theorem AliasChain_ends_as_Alias :
  forall (service : Admin') (w : World') (args : AliasChainArgs)
         (reply : AliasChainReply) (reply' : AliasReply) (chainID : ID) (m : Manager),
    Manager_Lookup impl (chains w) (AliasChainArgs_Chain args) = (chainID, None) ->
    Manager_Alias impl (chains w) chainID (AliasChainArgs_Alias args) = (m, None) ->
    let o := exec impl (AliasChain ID_String service args) reply service w in
    let o' := exec impl
                (Alias service
                   {| AliasArgs_Endpoint := "bc/" +:+ ID_String chainID;
                      AliasArgs_Alias := "bc/" +:+ AliasChainArgs_Alias args |})
                reply' service (set_chains m w) in
    out_err o = out_err o'
    /\ out_world o = out_world o'
    /\ AliasChainReply_Success (out_reply o) = AliasReply_Success (out_reply o').
Proof.
  intros service w args reply reply' chainID m Hlookup Halias. cbn.
  rewrite Hlookup. cbn. rewrite Halias. cbn.
  destruct (Server_AddAliasesWithReadLock impl (server w) _ _) as [s e3].
  repeat split.
Qed.

(** X9.  With a chain manager that keeps its word, one on which a name
    registered by Alias is found by Lookup afterwards, an AliasChain
    whose lookup and chain-manager registration succeeded makes
    GetBlockchainID of the alias answer the identifier of the chain, also
    when AliasChain itself returned the error of the API server. *)
Theorem alias_resolves_after_AliasChain :
  forall (service : Admin') (w : World') (args : AliasChainArgs)
         (reply : AliasChainReply) (reply' : GetBlockchainIDReply)
         (chainID : ID) (m : Manager),
    (forall (m0 m1 : Manager) (id : ID) (a : string),
        Manager_Alias impl m0 id a = (m1, None) -> Manager_Lookup impl m1 a = (id, None)) ->
    Manager_Lookup impl (chains w) (AliasChainArgs_Chain args) = (chainID, None) ->
    Manager_Alias impl (chains w) chainID (AliasChainArgs_Alias args) = (m, None) ->
    let o := exec impl (AliasChain ID_String service args) reply service w in
    let o' := exec impl (GetBlockchainID ID_String (out_service o)
                           {| GetBlockchainIDArgs_Alias := AliasChainArgs_Alias args |})
                   reply' (out_service o) (out_world o) in
    out_err o' = None
    /\ out_reply o' = {| GetBlockchainIDReply_BlockchainID := ID_String chainID |}.
Proof.
  intros service w args reply reply' chainID m Hkeeps Hlookup Halias. cbn.
  rewrite Hlookup. cbn. rewrite Halias. cbn.
  destruct (Server_AddAliasesWithReadLock impl (server w) _ _) as [s e3]. cbn.
  rewrite (Hkeeps _ _ _ _ Halias). cbn. split; reflexivity.
Qed.

End Frames.

(** * Properties of the generated messages and stubs *)

Section Messages.

Import ghttpproto.

(** X10.  Getters chain through missing messages: on a pointer to an
    HTTPRequest, nil or not, GetRequest().GetUrl().GetUser().GetUsername()
    is the user name when request, URL and user are all there and the
    empty string when any of them is nil, and likewise
    GetRequest().GetTls().GetPeerCertificates().GetCert() is the
    certificate list or nil; no link of the chain is dereferenced when it
    is nil. *)
Theorem getter_chains_through_nil :
  forall (m : option HTTPRequest),
    Userinfo_GetUsername (URL_GetUser (Request_GetUrl (HTTPRequest_GetRequest m)))
      = from_option Userinfo_Username ""
          (((m ≫= HTTPRequest_Request) ≫= Request_Url) ≫= URL_User)
    /\ Userinfo_GetPasswordSet (URL_GetUser (Request_GetUrl (HTTPRequest_GetRequest m)))
      = from_option Userinfo_PasswordSet false
          (((m ≫= HTTPRequest_Request) ≫= Request_Url) ≫= URL_User)
    /\ Certificates_GetCert
         (ConnectionState_GetPeerCertificates (Request_GetTls (HTTPRequest_GetRequest m)))
      = from_option Certificates_Cert []
          (((m ≫= HTTPRequest_Request) ≫= Request_Tls) ≫= ConnectionState_PeerCertificates).
Proof.
  intros m. destruct m as [h |]; [| repeat split].
  destruct (HTTPRequest_Request h) as [r |] eqn:Hr; cbn; rewrite Hr; cbn; [| repeat split].
  repeat apply conj.
  - destruct (Request_Url r) as [l |]; cbn; [| reflexivity].
    destruct (URL_User l); reflexivity.
  - destruct (Request_Url r) as [l |]; cbn; [| reflexivity].
    destruct (URL_User l); reflexivity.
  - destruct (Request_Tls r) as [cs |]; cbn; [| reflexivity].
    destruct (ConnectionState_PeerCertificates cs); reflexivity.
Qed.

End Messages.

Section StubProperties.

Import ghttpproto.

Context {Ctx CallOption Err Code Conn S Other : Type}.
Variable status_Errorf : Code -> string -> Err.
Variable codes_Unimplemented : Code.

Local Abbreviation Any' := (@Any Ctx Err S Other).
Local Abbreviation Decoder' := (@Decoder Err S).
Local Abbreviation Interceptor' := (@UnaryServerInterceptor Ctx Err S Other).

(** X11.  The client's Handle invokes /ghttpproto.HTTP/Handle once, with
    the request it was given and a fresh zero response, and returns
    either the response Invoke filled in, with a nil error, or a nil
    response with the very error Invoke returned; never both and never
    neither. *)
Theorem client_Handle_response_or_error :
  forall (Invoke : Conn -> Ctx -> string -> option HTTPRequest -> HTTPResponse ->
                   list CallOption -> Conn * HTTPResponse * option Err)
         (c : hTTPClient) (ctx : Ctx) (in_ : option HTTPRequest)
         (opts : list CallOption) (conn : Conn),
    let invoked := Invoke conn ctx "/ghttpproto.HTTP/Handle" in_ HTTPResponse_zero opts in
    let result := hTTPClient_Handle Invoke c ctx in_ opts conn in
    snd (fst result) = snd invoked
    /\ snd result = fst (fst invoked)
    /\ (fst (fst result) = None <-> snd (fst result) <> None)
    /\ (snd invoked = None -> fst (fst result) = Some (snd (fst invoked))).
Proof.
  intros Invoke c ctx in_ opts conn. cbn. unfold hTTPClient_Handle.
  destruct (Invoke conn ctx _ in_ HTTPResponse_zero opts) as [[conn' out'] [e |]]; cbn.
  - repeat apply conj; try reflexivity; try split; intros; congruence.
  - repeat apply conj; try reflexivity; try split; intros; congruence.
Qed.

(** X12.  When the decoder returns an error, the server handler returns
    that error with a nil result and does nothing more: the outcome is
    the same for every server value and every interceptor, which are
    never called. *)
Theorem server_handler_decode_error :
  forall (srv : Any') (ctx : Ctx) (dec : Decoder') (interceptor : option Interceptor')
         (s s1 : S) (in_ : HTTPRequest) (e : Err),
    dec HTTPRequest_zero s = (in_, Some e, s1) ->
    _HTTP_Handle_Handler srv ctx dec interceptor s = (Returned Any_nil (Some e), s1).
Proof.
  intros srv ctx dec interceptor s s1 in_ e Hdec.
  unfold _HTTP_Handle_Handler. rewrite Hdec. reflexivity.
Qed.

(** X13.  An interceptor is transparent when it only calls the handler it
    is given: with the pass-through interceptor the server handler does
    what it does with none.  The handler an interceptor is given serves
    whatever request pointer it is called with, so an interceptor that
    swaps the request makes the server handle the swapped one; called
    with a value that is no request pointer, it panics. *)
Theorem server_handler_interceptor :
  forall (srv : Any') (ctx : Ctx) (dec : Decoder') (s s1 : S) (in_ : HTTPRequest),
    dec HTTPRequest_zero s = (in_, None, s1) ->
    _HTTP_Handle_Handler srv ctx dec (Some pass_through) s
      = _HTTP_Handle_Handler srv ctx dec None s
    /\ _HTTP_Handle_Handler srv ctx dec None s = call_Handle srv ctx (Some in_) s1
    /\ (forall (p : option HTTPRequest),
          _HTTP_Handle_Handler srv ctx dec
            (Some (fun ctx0 _ _ handler s0 => handler ctx0 (Any_HTTPRequest p) s0)) s
          = call_Handle srv ctx p s1)
    /\ (forall (v : Any'),
          (forall p, v <> Any_HTTPRequest p) ->
          _HTTP_Handle_Handler srv ctx dec
            (Some (fun ctx0 _ _ handler s0 => handler ctx0 v s0)) s
          = (Panic, s1)).
Proof.
  intros srv ctx dec s s1 in_ Hdec.
  unfold _HTTP_Handle_Handler, pass_through. rewrite Hdec.
  repeat apply conj; try reflexivity.
  intros v Hv. destruct v; try reflexivity. exfalso. exact (Hv p eq_refl).
Qed.

(** X14.  Once the request has decoded, the server handler without an
    interceptor panics exactly when the server value does not implement
    HTTPServer; with a server that does, it returns what the server's
    Handle returns, the response as a *HTTPResponse, nil or not, never
    as a nil interface.  With UnimplementedHTTPServer that is a nil
    *HTTPResponse and the Unimplemented status error, the state left as
    the decoder left it. *)
Theorem server_handler_without_interceptor :
  forall (srv : Any') (ctx : Ctx) (dec : Decoder') (s s1 : S) (in_ : HTTPRequest),
    dec HTTPRequest_zero s = (in_, None, s1) ->
    (fst (_HTTP_Handle_Handler srv ctx dec None s) = Panic
     <-> forall impl, srv <> Any_HTTPServer impl)
    /\ (forall impl,
          srv = Any_HTTPServer impl ->
          _HTTP_Handle_Handler srv ctx dec None s
          = (Returned (Any_HTTPResponse (fst (fst (impl ctx (Some in_) s1))))
                      (snd (fst (impl ctx (Some in_) s1))),
             snd (impl ctx (Some in_) s1)))
    /\ (srv = Any_HTTPServer (UnimplementedHTTPServer_Handle status_Errorf codes_Unimplemented) ->
        _HTTP_Handle_Handler srv ctx dec None s
        = (Returned (Any_HTTPResponse None)
                    (Some (status_Errorf codes_Unimplemented "method Handle not implemented")),
           s1)).
Proof.
  intros srv ctx dec s s1 in_ Hdec.
  unfold _HTTP_Handle_Handler. rewrite Hdec. cbn.
  split; [| split].
  - destruct srv as [| p | p | impl | v]; cbn; split; try discriminate; try reflexivity.
    + destruct (impl ctx (Some in_) s1) as [[resp err] s2]. discriminate.
    + intros H. exfalso. exact (H impl eq_refl).
  - intros impl ->. cbn. destruct (impl ctx (Some in_) s1) as [[resp err] s2]. reflexivity.
  - intros ->. reflexivity.
Qed.

End StubProperties.

Section MethodName.

Import ghttpproto.

Context {Ctx CallOption Err Conn S : Type}.

(** X15.  Client and server agree on the name of the method: the service
    descriptor lists one method, whose full name is
    /ghttpproto.HTTP/Handle; that is the method the client's Handle
    invokes, and it is the FullMethod the server handler reports to an
    interceptor, together with the server value it was called with. *)
Theorem method_name_agreed :
  full_method_names (@_HTTP_serviceDesc Ctx Err S string) = ["/ghttpproto.HTTP/Handle"]
  /\ (forall (c : hTTPClient) (ctx : Ctx) (in_ : option HTTPRequest)
             (opts : list CallOption) (seen : list string),
        snd (hTTPClient_Handle
               (Err := Err)
               (fun conn _ method _ out _ => (method :: conn, out, None))
               c ctx in_ opts seen)
        = full_method_names (@_HTTP_serviceDesc Ctx Err S string) ++ seen)
  /\ (forall (srv : @Any Ctx Err S string) (ctx : Ctx) (dec : @Decoder Err S)
             (s s1 : S) (in_ : HTTPRequest),
        dec HTTPRequest_zero s = (in_, None, s1) ->
        _HTTP_Handle_Handler srv ctx dec
          (Some (fun _ _ info _ s0 =>
                   (Returned (Any_other (UnaryServerInfo_FullMethod info)) None, s0))) s
        = (Returned (Any_other "/ghttpproto.HTTP/Handle") None, s1)
        /\ _HTTP_Handle_Handler srv ctx dec
          (Some (fun _ _ info _ s0 => (Returned (UnaryServerInfo_Server info) None, s0))) s
        = (Returned srv None, s1)).
Proof.
  repeat apply conj.
  - reflexivity.
  - intros c ctx in_ opts seen. reflexivity.
  - intros srv ctx dec s s1 in_ Hdec.
    unfold _HTTP_Handle_Handler. rewrite Hdec. split; reflexivity.
Qed.

End MethodName.

(** * The further properties on the example node *)

(** The chain manager of the specification finds a name once it is
    registered. *)
Lemma ChainResolver_finds_registered (m0 m1 : gmap string string) (id a : string) :
  ChainResolver_RegisterAlias m0 id a = (m1, None) ->
  ChainResolver_Lookup m1 a = (id, None).
Proof.
  unfold ChainResolver_RegisterAlias, ChainResolver_Lookup. intros [= <-].
  rewrite lookup_insert_eq. reflexivity.
Qed.

(** A run of reads on the example node, one of them a lookup that
    fails. *)
Lemma read_only_run_changes_nothing_witness :
  forallb read_only_request example_reads = true
  /\ service_after (fun v : string => v) chainID_String example_NetworkName ""
       spec_collaborators example_reads example_service example_world = example_service
  /\ world_after (fun v : string => v) chainID_String example_NetworkName ""
       spec_collaborators example_reads example_service example_world = example_world.
Proof.
  split; [reflexivity |].
  destruct (read_only_run_changes_nothing (fun v : string => v) chainID_String
              example_NetworkName "" spec_collaborators example_reads
              example_service example_world eq_refl) as (Hs & Hw & _).
  split; assumption.
Defined.

(** The profiler run of the example node registers no alias. *)
Lemma alias_registrations_only_by_alias_requests_witness :
  forallb (fun req => negb (is_alias_chain req)) example_run = true
  /\ forallb (fun req => negb (aliasing_request req)) example_run = true
  /\ chains (world_after (fun v : string => v) chainID_String example_NetworkName ""
               spec_collaborators example_run example_service example_world)
     = chains example_world
  /\ server (world_after (fun v : string => v) chainID_String example_NetworkName ""
               spec_collaborators example_run example_service example_world)
     = server example_world.
Proof.
  split; [reflexivity |]. split; [reflexivity |].
  destruct (alias_registrations_only_by_alias_requests (fun v : string => v)
              chainID_String example_NetworkName "" spec_collaborators example_run
              example_service example_world) as [Hchains Hserver].
  split; [exact (Hchains eq_refl) | exact (Hserver eq_refl)].
Defined.

(** The alias registrations on the example node do not reach the
    profiler. *)
Lemma profiler_reached_only_by_profiling_requests_witness :
  forallb (fun req => negb (profiling_request req)) example_aliasing = true
  /\ service_after (fun v : string => v) chainID_String example_NetworkName ""
       spec_collaborators example_aliasing example_service example_world = example_service
  /\ runtime (world_after (fun v : string => v) chainID_String example_NetworkName ""
                spec_collaborators example_aliasing example_service example_world)
     = runtime example_world.
Proof.
  split; [reflexivity |].
  exact (profiler_reached_only_by_profiling_requests (fun v : string => v)
           chainID_String example_NetworkName "" spec_collaborators example_aliasing
           example_service example_world eq_refl).
Defined.

(** The name [nope] is unknown on the example node: GetBlockchainID
    fails with NotFound, and so does AliasChain of it. *)
Lemma AliasChain_fails_where_GetBlockchainID_fails_witness :
  out_err (exec spec_collaborators
             (GetBlockchainID chainID_String example_service
                {| GetBlockchainIDArgs_Alias := "nope" |})
             {| GetBlockchainIDReply_BlockchainID := "" |}
             example_service example_world) = Some NotFound
  /\ out_err (exec spec_collaborators
                (AliasChain chainID_String example_service
                   {| AliasChainArgs_Chain := "nope"; AliasChainArgs_Alias := "myalias" |})
                {| AliasChainReply_Success := false |}
                example_service example_world) = Some NotFound.
Proof.
  split; [reflexivity |].
  exact (proj1 (AliasChain_fails_where_GetBlockchainID_fails chainID_String
                  spec_collaborators example_service example_world "nope" "myalias"
                  {| GetBlockchainIDReply_BlockchainID := "" |}
                  {| AliasChainReply_Success := false |} NotFound eq_refl)).
Defined.

(** AliasChain(C, myalias) on the node where [bc/myalias] is taken ends
    as Alias(bc/abc123, bc/myalias) does: refused. *)
Lemma AliasChain_ends_as_Alias_witness :
  ChainResolver_Lookup (chains occupied_world) "C" = ("abc123", None)
  /\ ChainResolver_RegisterAlias (chains occupied_world) "abc123" "myalias"
     = (<["myalias" := "abc123"]> (chains occupied_world), None)
  /\ out_err (exec spec_collaborators
                (AliasChain chainID_String example_service
                   {| AliasChainArgs_Chain := "C"; AliasChainArgs_Alias := "myalias" |})
                {| AliasChainReply_Success := false |}
                example_service occupied_world)
     = out_err (exec spec_collaborators
                  (Alias example_service
                     {| AliasArgs_Endpoint := "bc/abc123"; AliasArgs_Alias := "bc/myalias" |})
                  {| AliasReply_Success := false |}
                  example_service
                  (set_chains (<["myalias" := "abc123"]> (chains occupied_world))
                              occupied_world)).
Proof.
  split; [reflexivity |]. split; [reflexivity |].
  exact (proj1 (AliasChain_ends_as_Alias chainID_String spec_collaborators
                  example_service occupied_world
                  {| AliasChainArgs_Chain := "C"; AliasChainArgs_Alias := "myalias" |}
                  {| AliasChainReply_Success := false |} {| AliasReply_Success := false |}
                  "abc123" (<["myalias" := "abc123"]> (chains occupied_world))
                  eq_refl eq_refl)).
Defined.

(** On the node where [bc/myalias] is taken AliasChain(C, myalias)
    returns an error, and GetBlockchainID(myalias) answers [abc123]
    afterwards. *)
Lemma alias_resolves_after_AliasChain_witness :
  ChainResolver_Lookup (chains occupied_world) "C" = ("abc123", None)
  /\ ChainResolver_RegisterAlias (chains occupied_world) "abc123" "myalias"
     = (<["myalias" := "abc123"]> (chains occupied_world), None)
  /\ out_reply
       (exec spec_collaborators
          (GetBlockchainID chainID_String
             (out_service
                (exec spec_collaborators
                   (AliasChain chainID_String example_service
                      {| AliasChainArgs_Chain := "C"; AliasChainArgs_Alias := "myalias" |})
                   {| AliasChainReply_Success := false |} example_service occupied_world))
             {| GetBlockchainIDArgs_Alias := "myalias" |})
          {| GetBlockchainIDReply_BlockchainID := "" |}
          (out_service
             (exec spec_collaborators
                (AliasChain chainID_String example_service
                   {| AliasChainArgs_Chain := "C"; AliasChainArgs_Alias := "myalias" |})
                {| AliasChainReply_Success := false |} example_service occupied_world))
          (out_world
             (exec spec_collaborators
                (AliasChain chainID_String example_service
                   {| AliasChainArgs_Chain := "C"; AliasChainArgs_Alias := "myalias" |})
                {| AliasChainReply_Success := false |} example_service occupied_world)))
     = {| GetBlockchainIDReply_BlockchainID := "abc123" |}.
Proof.
  split; [reflexivity |]. split; [reflexivity |].
  exact (proj2 (alias_resolves_after_AliasChain chainID_String spec_collaborators
                  example_service occupied_world
                  {| AliasChainArgs_Chain := "C"; AliasChainArgs_Alias := "myalias" |}
                  {| AliasChainReply_Success := false |}
                  {| GetBlockchainIDReply_BlockchainID := "" |}
                  "abc123" (<["myalias" := "abc123"]> (chains occupied_world))
                  ChainResolver_finds_registered eq_refl eq_refl)).
Defined.

(** A request that does not decode, on the example server. *)
Lemma server_handler_decode_error_witness :
  example_broken_decoder ghttpproto.HTTPRequest_zero 0
    = (ghttpproto.HTTPRequest_zero, Some "malformed request", 0)
  /\ ghttpproto._HTTP_Handle_Handler (Other := string)
       (ghttpproto.Any_HTTPServer example_server) tt example_broken_decoder None 0
     = (ghttpproto.Returned ghttpproto.Any_nil (Some "malformed request"), 0).
Proof.
  split; [reflexivity |].
  exact (server_handler_decode_error (ghttpproto.Any_HTTPServer example_server) tt
           example_broken_decoder None 0 0 ghttpproto.HTTPRequest_zero
           "malformed request" eq_refl).
Defined.

(** A request that decodes, on the example server, with the pass-through
    interceptor and with none. *)
Lemma server_handler_interceptor_witness :
  example_decoder ghttpproto.HTTPRequest_zero 0 = (ghttpproto.HTTPRequest_zero, None, 0)
  /\ ghttpproto._HTTP_Handle_Handler (Other := string)
       (ghttpproto.Any_HTTPServer example_server) tt example_decoder
       (Some ghttpproto.pass_through) 0
     = ghttpproto._HTTP_Handle_Handler (Other := string)
         (ghttpproto.Any_HTTPServer example_server) tt example_decoder None 0.
Proof.
  split; [reflexivity |].
  exact (proj1 (server_handler_interceptor (ghttpproto.Any_HTTPServer example_server) tt
                  example_decoder 0 0 ghttpproto.HTTPRequest_zero eq_refl)).
Defined.

(** A request that decodes, handed to a server value that is no
    HTTPServer. *)
Lemma server_handler_without_interceptor_witness :
  example_decoder ghttpproto.HTTPRequest_zero 0 = (ghttpproto.HTTPRequest_zero, None, 0)
  /\ fst (ghttpproto._HTTP_Handle_Handler (Ctx := unit)
            (ghttpproto.Any_other "not a server") tt example_decoder None 0)
     = ghttpproto.Panic.
Proof.
  split; [reflexivity |].
  apply (proj1 (server_handler_without_interceptor (Code := nat)
                  (fun code msg => msg) 12
                  (ghttpproto.Any_other "not a server") tt
                  example_decoder 0 0 ghttpproto.HTTPRequest_zero eq_refl)).
  intros impl. discriminate.
Defined.

(** The example server is told the method it serves. *)
Lemma method_name_agreed_witness :
  example_decoder ghttpproto.HTTPRequest_zero 0 = (ghttpproto.HTTPRequest_zero, None, 0)
  /\ ghttpproto._HTTP_Handle_Handler
       (ghttpproto.Any_HTTPServer example_server) tt example_decoder
       (Some (fun _ _ info _ s0 =>
                (ghttpproto.Returned
                   (ghttpproto.Any_other (ghttpproto.UnaryServerInfo_FullMethod info))
                   None, s0))) 0
     = (ghttpproto.Returned (ghttpproto.Any_other "/ghttpproto.HTTP/Handle") None, 0).
Proof.
  split; [reflexivity |].
  exact (proj1 (proj2 (proj2 (method_name_agreed (CallOption := unit)))
                  (ghttpproto.Any_HTTPServer example_server) tt example_decoder 0 0
                  ghttpproto.HTTPRequest_zero eq_refl)).
Defined.

(** * The service and the collaborators of the specification together *)

(** One registration on the routing table of the specification that was
    not refused: the alias and the path resolve alike afterwards, to what
    the path resolved to before. *)
Lemma RoutingTable_registered_resolve_alike (t t' : gmap string string)
    (path alias : string) :
  RoutingTable_RegisterAlias t path [alias] = (t', None) ->
  RoutingTable_resolve t' alias = RoutingTable_resolve t path
  /\ RoutingTable_resolve t' path = RoutingTable_resolve t path.
Proof.
  unfold RoutingTable_RegisterAlias. cbn [existsb foldr].
  destruct (bool_decide (is_Some (t !! alias))); cbn [orb]; [discriminate |].
  intros [= <-]. split.
  - unfold RoutingTable_resolve at 1. rewrite lookup_insert_eq. reflexivity.
  - destruct (decide (alias = path)) as [-> | Hne].
    + unfold RoutingTable_resolve at 1. rewrite lookup_insert_eq. reflexivity.
    + unfold RoutingTable_resolve at 1 3. rewrite lookup_insert_ne by exact Hne.
      reflexivity.
Qed.

(** C4.  AliasChain first looks the chain reference up with the chain
    manager, then registers the alias for the identifier found with the
    chain manager, then registers with the API server the alias
    [bc/<alias>] for the endpoint [bc/<identifier>], in this order and
    each step only after the one before returned no error; when the
    lookup fails nothing is registered and the world is as before.  This
    holds for every implementation of the collaborators.  On the routing
    table of the specification, after an AliasChain that returned no
    error the names [bc/<alias>] and [bc/<identifier>] expose the same
    handler: both resolve to what [bc/<identifier>] resolved to before
    the call. *)
Theorem AliasChain_resolves_then_registers :
  (forall (Version ShortID ID Err Performance Manager Server Network Runtime : Type)
          (ID_String : ID -> string)
          (impl : @Collaborators ShortID ID Err Performance Manager Server Network Runtime)
          (service : @Admin Version ShortID Performance)
          (w : @World Manager Server Network Runtime)
          (args : AliasChainArgs) (reply : AliasChainReply),
      let o := exec impl (AliasChain ID_String service args) reply service w in
      let debug := log_Debug "Admin: AliasChain called with Chain: %s, Alias: %s"
                     [AliasChainArgs_Chain args; AliasChainArgs_Alias args] in
      let looked := Manager_Lookup impl (chains w) (AliasChainArgs_Chain args) in
      let chainID := fst looked in
      let aliased := Manager_Alias impl (chains w) chainID (AliasChainArgs_Alias args) in
      let endpoint := "bc/" +:+ ID_String chainID in
      let route := "bc/" +:+ AliasChainArgs_Alias args in
      let routed := Server_AddAliasesWithReadLock impl (server w) endpoint [route] in
      match snd looked, snd aliased with
      | Some _, _ =>
          calls_of o = [debug; chainManager_Lookup (AliasChainArgs_Chain args)]
          /\ out_world o = w
      | None, Some _ =>
          calls_of o = [debug; chainManager_Lookup (AliasChainArgs_Chain args);
                        chainManager_Alias chainID (AliasChainArgs_Alias args)]
          /\ out_world o = set_chains (fst aliased) w
      | None, None =>
          calls_of o = [debug; chainManager_Lookup (AliasChainArgs_Chain args);
                        chainManager_Alias chainID (AliasChainArgs_Alias args);
                        httpServer_AddAliasesWithReadLock endpoint [route]]
          /\ out_world o = set_server (fst routed) (set_chains (fst aliased) w)
      end)
  /\ (forall (Version ShortID : Type)
             (service : @Admin Version ShortID ProfilerState)
             (w : @World (gmap string string) (gmap string string)
                         (list (@PeerID ShortID)) Backend)
             (args : AliasChainArgs) (reply : AliasChainReply),
         let o := exec spec_collaborators (AliasChain chainID_String service args)
                       reply service w in
         let chainID := fst (ChainResolver_Lookup (chains w) (AliasChainArgs_Chain args)) in
         let endpoint := "bc/" +:+ chainID_String chainID in
         let route := "bc/" +:+ AliasChainArgs_Alias args in
         out_err o = None ->
         RoutingTable_resolve (server (out_world o)) route
           = RoutingTable_resolve (server (out_world o)) endpoint
         /\ RoutingTable_resolve (server (out_world o)) endpoint
            = RoutingTable_resolve (server w) endpoint).
Proof.
  split.
  - intros Version ShortID ID Err Performance Manager Server Network Runtime
      ID_String impl service w args reply.
    exact (AliasChain_call_sequence ID_String impl service w args reply).
  - intros Version ShortID service w args reply. cbn.
    destruct (ChainResolver_Lookup (chains w) (AliasChainArgs_Chain args))
      as [chainID [e |]]; cbn; [discriminate |].
    destruct (RoutingTable_RegisterAlias (server w) ("bc/" +:+ chainID_String chainID)
                ["bc/" +:+ AliasChainArgs_Alias args]) as [t' [e |]] eqn:Hroute;
      cbn; [discriminate |].
    intros _.
    destruct (RoutingTable_registered_resolve_alike _ _ _ _ Hroute) as [Halias Hpath].
    unfold chainID_String in *. split; congruence.
Qed.

(** AliasChain(C, myalias) on the example node returns no error, and
    [bc/myalias] and [bc/abc123] resolve alike afterwards. *)
Lemma AliasChain_resolves_then_registers_witness :
  out_err (exec spec_collaborators
             (AliasChain chainID_String example_service
                {| AliasChainArgs_Chain := "C"; AliasChainArgs_Alias := "myalias" |})
             {| AliasChainReply_Success := false |} example_service example_world) = None
  /\ RoutingTable_resolve
       (server (out_world
                  (exec spec_collaborators
                     (AliasChain chainID_String example_service
                        {| AliasChainArgs_Chain := "C"; AliasChainArgs_Alias := "myalias" |})
                     {| AliasChainReply_Success := false |} example_service example_world)))
       "bc/myalias"
     = RoutingTable_resolve
         (server (out_world
                    (exec spec_collaborators
                       (AliasChain chainID_String example_service
                          {| AliasChainArgs_Chain := "C"; AliasChainArgs_Alias := "myalias" |})
                       {| AliasChainReply_Success := false |} example_service example_world)))
         "bc/abc123".
Proof.
  split; [reflexivity |].
  exact (proj1 (proj2 AliasChain_resolves_then_registers string string
                  example_service example_world
                  {| AliasChainArgs_Chain := "C"; AliasChainArgs_Alias := "myalias" |}
                  {| AliasChainReply_Success := false |} eq_refl)).
Defined.

(** C10, as amended.  After any run of requests on the service that
    NewService made, every field of the struct but [performance] holds
    the value it was constructed with, and a request other than the four
    profiling ones leaves the whole struct as it was; this holds for
    every implementation of the collaborators.  With the profiler of the
    specification the field [performance] is changed by every
    StartCPUProfiler and StopCPUProfiler that succeeds and by nothing
    else: every other request, MemoryProfile and LockProfile included,
    and every Start or Stop that fails leaves the whole struct as it
    was. *)
Theorem Admin_fields_fixed_except_performance :
  (forall (Version ShortID ID Err Performance Manager Server Network Runtime : Type)
          (Version_String : Version -> string) (ID_String : ID -> string)
          (genesis_NetworkName : Z -> string) (ShortID_zero : ShortID)
          (Performance_zero : Performance)
          (impl : @Collaborators ShortID ID Err Performance Manager Server Network Runtime)
          (reqs : list Request) (w : @World Manager Server Network Runtime)
          (v : Version) (n : ShortID) (net : Z) (l c p h : Addr),
      let service := NewService Performance_zero v n net l c p h in
      let service' :=
        snd (fst (serve_all Version_String ID_String genesis_NetworkName ShortID_zero
                            impl reqs service w)) in
      (version service' = v /\ nodeID service' = n /\ networkID service' = net
       /\ log service' = l /\ networking service' = p
       /\ chainManager service' = c /\ httpServer service' = h)
      /\ (forall (req : Request) (s : @Admin Version ShortID Performance)
                 (w0 : @World Manager Server Network Runtime),
            if profiling_request req then True
            else resp_service (serve Version_String ID_String genesis_NetworkName
                                     ShortID_zero impl req s w0) = s))
  /\ (forall (Version ShortID : Type) (Version_String : Version -> string)
             (genesis_NetworkName : Z -> string) (ShortID_zero : ShortID)
             (req : Request) (s : @Admin Version ShortID ProfilerState)
             (w : @World (gmap string string) (gmap string string)
                         (list (@PeerID ShortID)) Backend),
         let r := serve Version_String chainID_String genesis_NetworkName ShortID_zero
                        spec_collaborators req s w in
         if (is_start req || is_stop req) && succeeded r
         then performance (resp_service r) <> performance s
         else resp_service r = s).
Proof.
  split.
  - intros Version ShortID ID Err Performance Manager Server Network Runtime
      Version_String ID_String genesis_NetworkName ShortID_zero Performance_zero impl
      reqs w v n net l c p h.
    exact (Admin_wiring_fixed_by_any_run Version_String ID_String genesis_NetworkName
             ShortID_zero Performance_zero impl reqs w v n net l c p h).
  - intros Version ShortID Version_String genesis_NetworkName ShortID_zero req s w r.
    subst r. destruct req as [| | | | args | | args | | args | args | args | args |];
      cbn [is_start is_stop orb andb].
    + reflexivity.
    + reflexivity.
    + reflexivity.
    + reflexivity.
    + cbn. destruct (ChainResolver_Lookup _ _); reflexivity.
    + reflexivity.
    + destruct (performance s) as [| path] eqn:Hst.
      * destruct (serve_Start_while_idle Version_String genesis_NetworkName
                    ShortID_zero args s w Hst) as [[Herr Hp] | (Herr & Hs & _)];
          unfold succeeded; rewrite Herr; [| exact Hs].
        rewrite Hp. discriminate.
      * destruct (serve_Start_while_profiling Version_String genesis_NetworkName
                    ShortID_zero args s w path Hst) as (Herr & Hs & _).
        unfold succeeded. rewrite Herr. exact Hs.
    + destruct (performance s) as [| path] eqn:Hst.
      * destruct (serve_Stop_while_idle Version_String genesis_NetworkName
                    ShortID_zero s w Hst) as (Herr & Hs & _).
        unfold succeeded. rewrite Herr. exact Hs.
      * destruct (serve_Stop_while_profiling Version_String genesis_NetworkName
                    ShortID_zero s w path Hst) as [Herr Hp].
        unfold succeeded. rewrite Herr, Hp. discriminate.
    + cbn. unfold ProfilerController_MemoryProfile, ProfilerController_snapshot.
      destruct (bool_decide _); cbn; apply set_performance_same.
    + cbn. unfold ProfilerController_LockProfile, ProfilerController_snapshot.
      destruct (bool_decide _); cbn; apply set_performance_same.
    + cbn. destruct (RoutingTable_RegisterAlias _ _ _); reflexivity.
    + cbn. destruct (ChainResolver_Lookup _ _) as [chainID [e |]]; cbn; [reflexivity |].
      destruct (RoutingTable_RegisterAlias _ _ _); reflexivity.
    + reflexivity.
Qed.
